(** * pingpong-rank: the ranking engine of [main.py]

    A shallow embedding of [calculate_rankings] (main.py, lines 85-157) and of
    the Python and pandas operations it is built from, followed by the
    properties of the scoring rules, of the day-by-day fold and of its
    outputs.

    Modelling conventions.
    - A DataFrame is the list of its rows, in row order.  A player cell is an
      [option string]: [None] is a missing value (what [pd.isna] detects).
    - A Python [dict] is an association list in insertion order with pairwise
      distinct keys: iteration order is observable here, because [sorted] is
      stable and the rank of a player among equal scores is its position in
      the dict.
    - Python integers are unbounded: scores are [Z].
    - A raised [KeyError] is [None] in the [option] monad. *)

From Stdlib Require Import ZArith List String Bool Lia Permutation Sorted FinFun.
Import ListNotations.
Open Scope string_scope.
Open Scope list_scope.
Open Scope Z_scope.

Set Implicit Arguments.

(* ------------------------------------------------------------------ *)
(** ** Decidable equality on keys *)

Class EqDec (A : Type) := eq_dec : forall x y : A, {x = y} + {x <> y}.

#[export] Instance string_EqDec : EqDec string := string_dec.
#[export] Instance Z_EqDec : EqDec Z := Z.eq_dec.
#[export] Instance option_EqDec (A : Type) `{EqDec A} : EqDec (option A).
Proof. intros [x|] [y|]; try (right; discriminate); [|left; reflexivity].
       destruct (eq_dec x y) as [->|n]; [left; reflexivity | right; congruence].
Defined.

(* ------------------------------------------------------------------ *)
(** ** The error monad: [None] is a raised exception *)

Definition bind {A B : Type} (m : option A) (k : A -> option B) : option B :=
  match m with
  | Some a => k a
  | None => None
  end.

Notation "'do' x <- m ; k" := (bind m (fun x => k))
  (at level 10, x pattern, m at level 100, k at level 200).

(* ------------------------------------------------------------------ *)
(** ** Python dictionaries *)

Module Dict.
Section Dict.
Context {K V : Type} `{EqDec K}.

Definition dict : Type := list (K * V).

(** [d.keys()] and [d.items()], in insertion order. *)
Definition keys (d : dict) : list K := map fst d.
Definition items (d : dict) : list (K * V) := d.

(** [d.get(k)]. *)
Fixpoint get (d : dict) (k : K) : option V :=
  match d with
  | [] => None
  | (k', v) :: d' => if eq_dec k' k then Some v else get d' k
  end.

(** [d.get(k, dflt)]. *)
Definition get_or (d : dict) (k : K) (dflt : V) : V :=
  match get d k with
  | Some v => v
  | None => dflt
  end.

(** [d[k] = v]: an existing key keeps its position, a new one goes last. *)
Fixpoint set (d : dict) (k : K) (v : V) : dict :=
  match d with
  | [] => [(k, v)]
  | (k', v') :: d' =>
      if eq_dec k' k then (k', v) :: d' else (k', v') :: set d' k v
  end.

(** [d[k] = f(d[k])], as in [d[k] += x]: raises [KeyError] on a new key. *)
Definition update (d : dict) (k : K) (f : V -> V) : option dict :=
  do v <- get d k; Some (set d k (f v)).

(** [{k: v for (k, v) in kvs}]. *)
Definition comprehension (kvs : list (K * V)) : dict :=
  fold_left (fun d kv => set d (fst kv) (snd kv)) kvs [].
End Dict.
Arguments dict : clear implicits.
End Dict.

Abbreviation dict := Dict.dict.

(* ------------------------------------------------------------------ *)
(** ** [sorted], [enumerate], [pd.unique] *)

Section Sorted.
Context {A : Type} (before : A -> A -> bool).

(** [insert x l] puts [x] in front of the first element it may precede. *)
Fixpoint insert (x : A) (l : list A) : list A :=
  match l with
  | [] => [x]
  | y :: l' => if before x y then x :: y :: l' else y :: insert x l'
  end.

(** A stable sort: with [before x y] true on equal keys, elements with
    equal keys keep their relative order, as Python's [sorted] guarantees
    (also under [reverse=True]). *)
Fixpoint sorted (l : list A) : list A :=
  match l with
  | [] => []
  | x :: l' => insert x (sorted l')
  end.
End Sorted.

(** [enumerate(l)], counting from [i]. *)
Fixpoint enumerate_from {A : Type} (i : Z) (l : list A) : list (Z * A) :=
  match l with
  | [] => []
  | x :: l' => (i, x) :: enumerate_from (i + 1) l'
  end.

Definition enumerate {A : Type} (l : list A) : list (Z * A) := enumerate_from 0 l.

(** Membership test of the hash table behind [pd.unique]. *)
Fixpoint mem {A : Type} `{EqDec A} (x : A) (l : list A) : bool :=
  match l with
  | [] => false
  | y :: l' => if eq_dec y x then true else mem x l'
  end.

(** [pd.unique]: the distinct values in order of first appearance. *)
Definition unique {A : Type} `{EqDec A} (l : list A) : list A :=
  fold_left (fun seen x => if mem x seen then seen else seen ++ [x]) l [].

(* ------------------------------------------------------------------ *)
(** ** The match table *)

(** One row of the DataFrame returned by [load_data]: the columns
    [ID_Partida], [Data], [Jogador_1], [Jogador_2], [Resultado_J1] and
    [Resultado_J2].  Dates are day numbers. *)
Record partida : Type := {
  ID_Partida : Z;
  Data : Z;
  Jogador_1 : option string;
  Jogador_2 : option string;
  Resultado_J1 : Z;
  Resultado_J2 : Z
}.

Definition DataFrame : Type := list partida.

(** ** Scoring constants (main.py, lines 22-28) *)

Definition PONTOS_VITORIA : Z := 10.
Definition PONTOS_DERROTA : Z := -10.
Definition PONTOS_INICIAIS : Z := 1000.
Definition BONUS_TOP_1 : Z := 25.
Definition BONUS_TOP_2 : Z := 20.
Definition BONUS_TOP_3 : Z := 15.
Definition BONUS_UPSET : Z := 5.

(* ------------------------------------------------------------------ *)
(** ** The ranking engine: [calculate_rankings] (main.py, lines 85-157) *)

(** [df[['Jogador_1', 'Jogador_2']].values.ravel('K')]: the two player
    columns flattened in memory order, the whole first column and then the
    whole second one. *)
Definition ravel_K (df : DataFrame) : list (option string) :=
  map Jogador_1 df ++ map Jogador_2 df.

(** Line 93: [jogadores].  A missing value, when there is one, is an element
    of this array as well. *)
Definition jogadores (df : DataFrame) : list (option string) :=
  unique (ravel_K df).

(** The elements of [jogadores] that pass [pd.notna]. *)
Fixpoint notna (l : list (option string)) : list string :=
  match l with
  | [] => []
  | Some j :: l' => j :: notna l'
  | None :: l' => notna l'
  end.

(** Line 96: every player starts with [PONTOS_INICIAIS]. *)
Definition pontuacoes_iniciais (df : DataFrame) : dict string Z :=
  Dict.comprehension (map (fun j => (j, PONTOS_INICIAIS)) (notna (jogadores df))).

(** Line 102: [sorted(df['Data'].unique())]. *)
Definition datas_unicas (df : DataFrame) : list Z :=
  sorted Z.leb (unique (map Data df)).

(** Lines 109 and 153: [sorted(pontuacoes.items(), key=lambda item: item[1],
    reverse=True)], descending by points and stable. *)
Definition ranking (pontuacoes : dict string Z) : list (string * Z) :=
  sorted (fun a b => snd b <=? snd a) (Dict.items pontuacoes).

(** Line 112: the player's 1-based position in [ranking_anterior]. *)
Definition mapa_ranking (ranking_anterior : list (string * Z)) : dict string Z :=
  Dict.comprehension
    (map (fun ij => (fst (snd ij), fst ij + 1)) (enumerate ranking_anterior)).

(** Line 115: the rows of the day, sorted by [ID_Partida].  Rows with equal
    identifiers keep their row order here. *)
Definition partidas_do_dia (df : DataFrame) (data_atual : Z) : list partida :=
  sorted (fun a b => ID_Partida a <=? ID_Partida b)
         (filter (fun p => Data p =? data_atual) df).

(** Line 125: the conditional expression that names winner and loser. *)
Definition vencedor_perdedor (j1 j2 : string) (res1 res2 : Z) : string * string :=
  if res1 >? res2 then (j1, j2) else (j2, j1).

(** Lines 132-141: the winner's points from the two pre-day ranks. *)
Definition calc_pontos_vencedor (rank_vencedor rank_perdedor : Z) : Z :=
  let pontos_vencedor := PONTOS_VITORIA in
  let pontos_vencedor :=
    if rank_vencedor >? rank_perdedor then pontos_vencedor + BONUS_UPSET
    else pontos_vencedor in
  if rank_perdedor =? 1 then pontos_vencedor + BONUS_TOP_1
  else if rank_perdedor =? 2 then pontos_vencedor + BONUS_TOP_2
  else if rank_perdedor =? 3 then pontos_vencedor + BONUS_TOP_3
  else pontos_vencedor.

(** The two dictionaries the loop over a day's matches mutates. *)
Record estado : Type := {
  pontuacoes : dict string Z;
  pontos_ganhos_dia : dict string Z
}.

(** Lines 127-141 for a match between present players: winner, loser and
    the winner's points. *)
Definition resultado_partida (n_jogadores : Z) (mapa_ranking_anterior : dict string Z)
    (j1 j2 : string) (res1 res2 : Z) : string * string * Z :=
  let '(vencedor, perdedor) := vencedor_perdedor j1 j2 res1 res2 in
  let rank_vencedor := Dict.get_or mapa_ranking_anterior vencedor (n_jogadores + 1) in
  let rank_perdedor := Dict.get_or mapa_ranking_anterior perdedor (n_jogadores + 1) in
  (vencedor, perdedor, calc_pontos_vencedor rank_vencedor rank_perdedor).

(** Lines 143-150: the four dictionary updates of one match. *)
Definition aplica (st : estado) (vencedor perdedor : string) (pontos_vencedor : Z)
    : option estado :=
  let pontos_perdedor := PONTOS_DERROTA in
  do pont1 <- Dict.update (pontuacoes st) vencedor (fun v => v + pontos_vencedor);
  let pont2 :=
    Dict.set pont1 perdedor (Z.max 0 (Dict.get_or pont1 perdedor 0 + pontos_perdedor)) in
  do ganhos1 <- Dict.update (pontos_ganhos_dia st) vencedor (fun v => v + pontos_vencedor);
  do ganhos2 <- Dict.update ganhos1 perdedor (fun v => v + pontos_perdedor);
  Some {| pontuacoes := pont2; pontos_ganhos_dia := ganhos2 |}.

(** Lines 118-150: the body of the loop over the matches of a day.
    [n_jogadores] is [len(jogadores)]. *)
Definition processa_partida (n_jogadores : Z) (mapa_ranking_anterior : dict string Z)
    (st : estado) (p : partida) : option estado :=
  match Jogador_1 p, Jogador_2 p with
  | Some j1, Some j2 =>
      let '(vencedor, perdedor, pontos_vencedor) :=
        resultado_partida n_jogadores mapa_ranking_anterior j1 j2
                          (Resultado_J1 p) (Resultado_J2 p) in
      aplica st vencedor perdedor pontos_vencedor
  | _, _ => Some st  (* [continue] *)
  end.

(** The loop over the matches of a day. *)
Fixpoint loop_partidas (n_jogadores : Z) (mapa_ranking_anterior : dict string Z)
    (st : estado) (partidas : list partida) : option estado :=
  match partidas with
  | [] => Some st
  | p :: partidas' =>
      do st' <- processa_partida n_jogadores mapa_ranking_anterior st p;
      loop_partidas n_jogadores mapa_ranking_anterior st' partidas'
  end.

(** Line 107: the day's record starts at 0 for every key of [pontuacoes]. *)
Definition ganhos_zerados (pont : dict string Z) : dict string Z :=
  Dict.comprehension (map (fun j => (j, 0)) (Dict.keys pont)).

(** Lines 107-150: one day, from the scores before it to the scores and
    the record of points after it. *)
Definition processa_dia (df : DataFrame) (pont : dict string Z) (data_atual : Z)
    : option estado :=
  let ganhos := ganhos_zerados pont in
  let ranking_anterior := ranking pont in
  let mapa_ranking_anterior := mapa_ranking ranking_anterior in
  loop_partidas (Z.of_nat (List.length (jogadores df))) mapa_ranking_anterior
                {| pontuacoes := pont; pontos_ganhos_dia := ganhos |}
                (partidas_do_dia df data_atual).

(** Line 155: the value stored under a date in [stats_diarias]. *)
Record stats_dia : Type := { pontos_ganhos : dict string Z }.

(** The variables the loop over the days carries. *)
Record acumulado : Type := {
  pontuacoes_atuais : dict string Z;
  rankings_diarios : dict Z (list (string * Z));
  stats_diarias : dict Z stats_dia
}.

(** Lines 105-155: the loop over the days. *)
Fixpoint loop_dias (df : DataFrame) (ac : acumulado) (datas : list Z)
    : option acumulado :=
  match datas with
  | [] => Some ac
  | data_atual :: datas' =>
      do st <- processa_dia df (pontuacoes_atuais ac) data_atual;
      loop_dias df
        {| pontuacoes_atuais := pontuacoes st;
           rankings_diarios :=
             Dict.set (rankings_diarios ac) data_atual (ranking (pontuacoes st));
           stats_diarias :=
             Dict.set (stats_diarias ac) data_atual
                      {| pontos_ganhos := pontos_ganhos_dia st |} |}
        datas'
  end.

Definition acumulado_inicial (df : DataFrame) : acumulado :=
  {| pontuacoes_atuais := pontuacoes_iniciais df;
     rankings_diarios := [];
     stats_diarias := [] |}.

(** The third component of the result: [{}] for an empty table, the table
    itself otherwise. *)
Inductive tabela : Type :=
| sem_dados : tabela
| dados : DataFrame -> tabela.

(** Lines 85-157. *)
Definition calculate_rankings (df : DataFrame)
    : option (dict Z (list (string * Z)) * dict Z stats_dia * tabela) :=
  match df with
  | [] => Some ([], [], sem_dados)
  | _ :: _ =>
      do ac <- loop_dias df (acumulado_inicial df) (datas_unicas df);
      Some (rankings_diarios ac, stats_diarias ac, dados df)
  end.

(** ** Points of the fold *)

(** The scores before the matches of [data_atual]. *)
Definition antes_do_dia (df : DataFrame) (data_atual : Z) (pont : dict string Z) : Prop :=
  exists ds ds' ac,
    datas_unicas df = ds ++ data_atual :: ds' /\
    loop_dias df (acumulado_inicial df) ds = Some ac /\
    pontuacoes_atuais ac = pont.

(** The state after some of the matches of [data_atual], in processing
    order: none of them, all of them, or any number in between. *)
Definition ponto_do_fold (df : DataFrame) (data_atual : Z) (st : estado) : Prop :=
  exists pont feitas restantes,
    antes_do_dia df data_atual pont /\
    partidas_do_dia df data_atual = feitas ++ restantes /\
    loop_partidas (Z.of_nat (List.length (jogadores df))) (mapa_ranking (ranking pont))
                  {| pontuacoes := pont; pontos_ganhos_dia := ganhos_zerados pont |}
                  feitas = Some st.

(** ** Invariants of the fold *)

(** The players of the table: the keys of [pontuacoes], in order. *)
Definition universo (df : DataFrame) : list string := notna (jogadores df).

Definition nao_negativas (pont : dict string Z) : Prop :=
  Forall (fun kv => 0 <= snd kv) pont.

(** What every state of the loop over a day's matches satisfies. *)
Record invariante (df : DataFrame) (st : estado) : Prop := {
  inv_pontuacoes : Dict.keys (pontuacoes st) = universo df;
  inv_ganhos : Dict.keys (pontos_ganhos_dia st) = universo df;
  inv_nao_negativas : nao_negativas (pontuacoes st)
}.

(** The winner's points as the scoring rules word them: the base, the
    upset bonus, and the bonus of the loser's place among the first three. *)
Definition bonus_upset (rank_vencedor rank_perdedor : Z) : Z :=
  if rank_perdedor <? rank_vencedor then 5 else 0.

Definition bonus_top (rank_perdedor : Z) : Z :=
  if rank_perdedor =? 1 then 25
  else if rank_perdedor =? 2 then 20
  else if rank_perdedor =? 3 then 15
  else 0.

(** ** A small table to run the engine on *)

Definition linha (id data : Z) (j1 j2 : option string) (r1 r2 : Z) : partida :=
  {| ID_Partida := id; Data := data; Jogador_1 := j1; Jogador_2 := j2;
     Resultado_J1 := r1; Resultado_J2 := r2 |}.

Definition tabela_exemplo : DataFrame :=
  [ linha 2 1 (Some "Bia") (Some "Caio") 11 7;
    linha 1 1 (Some "Ana") (Some "Bia") 11 5;
    linha 3 2 (Some "Caio") (Some "Ana") 9 9;
    linha 4 2 None (Some "Bia") 11 0 ].

Definition partida_exemplo : partida := linha 1 1 (Some "Ana") (Some "Bia") 11 5.
Definition empate_exemplo : partida := linha 3 2 (Some "Caio") (Some "Ana") 9 9.
Definition incompleta_exemplo : partida := linha 4 2 None (Some "Bia") 11 0.

(** The state at the start of the first day of [tabela_exemplo]. *)
Definition estado_exemplo : estado :=
  {| pontuacoes := pontuacoes_iniciais tabela_exemplo;
     pontos_ganhos_dia := ganhos_zerados (pontuacoes_iniciais tabela_exemplo) |}.

Definition mapa_exemplo : dict string Z :=
  mapa_ranking (ranking (pontuacoes_iniciais tabela_exemplo)).

(** One day on which Bia loses 101 times to Ana. *)
Definition tabela_derrotas : DataFrame :=
  map (fun i => linha (Z.of_nat i) 1 (Some "Ana") (Some "Bia") 11 0) (seq 1 101).

(** A state in which Bia has fewer than 10 points left. *)
Definition estado_quase_zero : estado :=
  {| pontuacoes := [("Ana", 1990); ("Bia", 4)];
     pontos_ganhos_dia := [("Ana", 0); ("Bia", 0)] |}.

Definition mapa_quase_zero : dict string Z := [("Ana", 1); ("Bia", 2)].

(* ------------------------------------------------------------------ *)
(** ** The daily page: [pagina_ranking_diario] (main.py, lines 161-286) *)

(** [max(l, key=key)]: the first element whose key no later element
    beats strictly; [ValueError] on an empty sequence. *)
Definition max_by {A : Type} (key : A -> Z) (l : list A) : option A :=
  match l with
  | [] => None
  | x :: l' =>
      Some (fold_left (fun best y => if key best <? key y then y else best) l' x)
  end.

(** [l.index(x)]: the first position of [x]; [ValueError] when absent. *)
Fixpoint index {A : Type} `{EqDec A} (x : A) (l : list A) : option nat :=
  match l with
  | [] => None
  | y :: l' => if eq_dec y x then Some O else do i <- index x l'; Some (S i)
  end.

(** Line 167: the dates of the rankings, the latest first. *)
Definition datas_disponiveis (rankings_por_dia : dict Z (list (string * Z))) : list Z :=
  sorted (fun a b => b <=? a) (Dict.keys rankings_por_dia).

(** Lines 188-191: the player of the day, with the day's points.
    [pontos_dia.get] is applied to keys of [pontos_dia] only. *)
Definition jogador_do_dia (pontos_dia : dict string Z) : option (string * Z) :=
  do j <- max_by (fun j => Dict.get_or pontos_dia j 0) (Dict.keys pontos_dia);
  do pontos <- Dict.get pontos_dia j;
  Some (j, pontos).

(** Lines 206-207: the date listed right after the selected one, if any. *)
Definition data_anterior (datas : list Z) (data_selecionada : Z) : option (option Z) :=
  do i <- index data_selecionada datas;
  Some (nth_error datas (i + 1)).

(** Lines 210-216: the points of every player before the selected day.
    The test [if data_anterior:] separates a date from [None]: a date is
    taken to be true. *)
Definition map_rank_ontem (rankings_por_dia : dict Z (list (string * Z)))
    (df_partidas : DataFrame) (anterior : option Z) : dict string Z :=
  match anterior with
  | Some da => Dict.comprehension (Dict.get_or rankings_por_dia da [])
  | None =>
      Dict.comprehension
        (map (fun j => (j, PONTOS_INICIAIS)) (notna (jogadores df_partidas)))
  end.

(** Lines 219-232, one row: the upset it adds to [upsets], if any. *)
Definition upset_da_partida (ontem : dict string Z) (p : partida)
    : list (Z * string * string) :=
  match Jogador_1 p, Jogador_2 p with
  | Some j1, Some j2 =>
      let '(vencedor, perdedor) :=
        vencedor_perdedor j1 j2 (Resultado_J1 p) (Resultado_J2 p) in
      let pontos_vencedor := Dict.get_or ontem vencedor PONTOS_INICIAIS in
      let pontos_perdedor := Dict.get_or ontem perdedor PONTOS_INICIAIS in
      if pontos_vencedor <? pontos_perdedor
      then [(pontos_perdedor - pontos_vencedor, vencedor, perdedor)]
      else []
  | _, _ => []
  end.

(** Lines 202-232: the upsets of the selected day, in row order. *)
Definition upsets_do_dia (ontem : dict string Z) (df_partidas : DataFrame)
    (data_selecionada : Z) : list (Z * string * string) :=
  flat_map (upset_da_partida ontem)
           (filter (fun p => Data p =? data_selecionada) df_partidas).

(** Line 238: the upset with the largest difference. *)
Definition maior_upset (upsets : list (Z * string * string))
    : option (Z * string * string) :=
  max_by (fun item => fst (fst item)) upsets.

(** Lines 268-273: the change of position shown beside a player. *)
Inductive mudanca : Type :=
| Novo : mudanca
| Subiu : Z -> mudanca
| Desceu : Z -> mudanca
| Igual : mudanca.

(** Lines 249-253: the positions of the day before; empty on the first day. *)
Definition posicoes_anteriores (rankings_por_dia : dict Z (list (string * Z)))
    (anterior : option Z) : dict string Z :=
  match anterior with
  | Some da => mapa_ranking (Dict.get_or rankings_por_dia da [])
  | None => []
  end.

(** Lines 264-273.  A position of 0 would be as good as none. *)
Definition mudanca_de (ranking_anterior : dict string Z) (posicao_atual : Z)
    (jogador : string) : mudanca :=
  match Dict.get ranking_anterior jogador with
  | None => Novo
  | Some posicao_anterior =>
      if posicao_anterior =? 0 then Novo
      else
        let diff := posicao_anterior - posicao_atual in
        if diff >? 0 then Subiu diff
        else if diff <? 0 then Desceu (Z.abs diff)
        else Igual
  end.

(** Lines 263-280: the rows of the table, as position, player, points and
    change. *)
Definition linhas_da_tabela (ranking_atual : list (string * Z))
    (ranking_anterior : dict string Z) : list (Z * string * Z * mudanca) :=
  map (fun ij =>
         let posicao_atual := fst ij + 1 in
         (posicao_atual, fst (snd ij), snd (snd ij),
          mudanca_de ranking_anterior posicao_atual (fst (snd ij))))
      (enumerate ranking_atual).

(* ------------------------------------------------------------------ *)
(** ** The player page: [pagina_analise_jogador] (main.py, lines 291-375) *)

(** [cell == jogador_selecionado]: false on a missing value. *)
Definition eh_jogador (cell : option string) (jogador_selecionado : string) : bool :=
  match cell with
  | Some j => if eq_dec j jogador_selecionado then true else false
  | None => false
  end.

(** Line 302: the rows that name the selected player. *)
Definition df_jogador (df_partidas : DataFrame) (jogador_selecionado : string)
    : DataFrame :=
  filter (fun p => eh_jogador (Jogador_1 p) jogador_selecionado
                   || eh_jogador (Jogador_2 p) jogador_selecionado)
         df_partidas.

(** Lines 309-310: the condition under which a row is a win. *)
Definition venceu (jogador_selecionado : string) (row : partida) : bool :=
  (eh_jogador (Jogador_1 row) jogador_selecionado
     && (Resultado_J1 row >? Resultado_J2 row))
  || (eh_jogador (Jogador_2 row) jogador_selecionado
        && (Resultado_J2 row >? Resultado_J1 row)).

(** Lines 305-313: the pair [(vitorias, derrotas)]. *)
Definition vitorias_derrotas (rows : DataFrame) (jogador_selecionado : string)
    : Z * Z :=
  fold_left
    (fun vd row =>
       if venceu jogador_selecionado row then (fst vd + 1, snd vd)
       else (fst vd, snd vd + 1))
    rows (0, 0).

(** The value of one opponent in [adversarios]. *)
Record confronto : Type := { vitorias : Z; derrotas : Z }.

(** Lines 337-351, one row.  The key is the opponent's cell.  A missing
    value is a key like any other here; whether Python sees two missing values
    as one key depends on the identity of the objects, so the properties below
    are stated for rows with both players present. *)
Definition conta_confronto (jogador_selecionado : string)
    (adversarios : dict (option string) confronto) (row : partida)
    : dict (option string) confronto :=
  let adversario :=
    if eh_jogador (Jogador_1 row) jogador_selecionado
    then Jogador_2 row else Jogador_1 row in
  let vencedor :=
    if Resultado_J1 row >? Resultado_J2 row
    then Jogador_1 row else Jogador_2 row in
  let adversarios :=
    match Dict.get adversarios adversario with
    | None => Dict.set adversarios adversario {| vitorias := 0; derrotas := 0 |}
    | Some _ => adversarios
    end in
  let c := Dict.get_or adversarios adversario {| vitorias := 0; derrotas := 0 |} in
  if eh_jogador vencedor jogador_selecionado
  then Dict.set adversarios adversario
         {| vitorias := vitorias c + 1; derrotas := derrotas c |}
  else Dict.set adversarios adversario
         {| vitorias := vitorias c; derrotas := derrotas c + 1 |}.

(** Lines 336-351. *)
Definition adversarios_de (rows : DataFrame) (jogador_selecionado : string)
    : dict (option string) confronto :=
  fold_left (conta_confronto jogador_selecionado) rows [].

(** Lines 355 and 357: [carrasco] and [fregues]. *)
Definition carrasco (adversarios : dict (option string) confronto)
    : option (option string) :=
  max_by (fun k => derrotas (Dict.get_or adversarios k
                               {| vitorias := 0; derrotas := 0 |}))
         (Dict.keys adversarios).

Definition fregues (adversarios : dict (option string) confronto)
    : option (option string) :=
  max_by (fun k => vitorias (Dict.get_or adversarios k
                               {| vitorias := 0; derrotas := 0 |}))
         (Dict.keys adversarios).

(** [sorted] over values whose [<] may raise: [None] is the [TypeError] of
    a comparison.  As in Python, only [<] is used, and an element moves in
    front of another only when it is strictly smaller. *)
Fixpoint insert_err {A : Type} (lt : A -> A -> option bool) (x : A) (l : list A)
    : option (list A) :=
  match l with
  | [] => Some [x]
  | y :: l' =>
      do b <- lt y x;
      if b then do r <- insert_err lt x l'; Some (y :: r)
      else Some (x :: y :: l')
  end.

Fixpoint sorted_err {A : Type} (lt : A -> A -> option bool) (l : list A)
    : option (list A) :=
  match l with
  | [] => Some []
  | x :: l' => do r <- sorted_err lt l'; insert_err lt x r
  end.

(** [a < b] on player cells: strings compare with strings, a missing
    value (a float) with a missing value, and a string with a float
    raises. *)
Definition lt_celula (a b : option string) : option bool :=
  match a, b with
  | Some x, Some y => Some (String.ltb x y)
  | None, None => Some false
  | _, _ => None
  end.

(** Line 295: [sorted(pd.unique(...))], the options of the selection box. *)
Definition jogadores_ordenados (df_partidas : DataFrame)
    : option (list (option string)) :=
  sorted_err lt_celula (jogadores df_partidas).

(** ** Counting *)

(** The sum of one field over the values of a dictionary. *)
Definition soma_por {K V : Type} (f : V -> Z) (d : dict K V) : Z :=
  fold_right (fun kv acc => f (snd kv) + acc) 0 d.

(** A row with both players present. *)
Definition completa (p : partida) : bool :=
  match Jogador_1 p, Jogador_2 p with
  | Some _, Some _ => true
  | _, _ => false
  end.

(** The number of elements of [l] that pass [f]. *)
Definition conta {A : Type} (f : A -> bool) (l : list A) : Z :=
  Z.of_nat (List.length (filter f l)).

(** Two days: Ana beats Bia, then Bia beats Ana. *)
Definition tabela_zebra : DataFrame :=
  [ linha 1 1 (Some "Ana") (Some "Bia") 11 5;
    linha 2 2 (Some "Bia") (Some "Ana") 11 9 ].

(** The score dictionary a snapshot stands for: the players of the table
    in their order, each with the points the snapshot gives. *)
Definition placar_do_snapshot (df : DataFrame) (snapshot : list (string * Z))
    : dict string Z :=
  map (fun j => (j, Dict.get_or snapshot j 0)) (universo df).

(** Three rows on two days, and the same rows in another order. *)
Definition tabela_tres : DataFrame :=
  [ linha 1 1 (Some "Ana") (Some "Bia") 11 5;
    linha 2 1 (Some "Ana") (Some "Bia") 7 11;
    linha 3 2 (Some "Bia") (Some "Ana") 11 9 ].

Definition tabela_tres_trocada : DataFrame :=
  [ linha 2 1 (Some "Ana") (Some "Bia") 7 11;
    linha 1 1 (Some "Ana") (Some "Bia") 11 5;
    linha 3 2 (Some "Bia") (Some "Ana") 11 9 ].

(* ------------------------------------------------------------------ *)
(** * Properties *)

(** ** The error monad *)

Lemma bind_Some {A B : Type} (m : option A) (k : A -> option B) (b : B) :
  bind m k = Some b <-> exists a, m = Some a /\ k a = Some b.
Proof.
  destruct m as [a|]; simpl; split.
  - intros E; exists a; auto.
  - intros (a' & E & E'); congruence.
  - discriminate.
  - intros (a' & E & _); discriminate.
Qed.

(** ** Dictionaries *)

Module DictFacts.
Import Dict.
Section DictFacts.
Context {K V : Type} `{EqDec K}.
Implicit Types (d : dict K V) (k : K) (v : V).

Lemma get_set_eq d k v : get (set d k v) k = Some v.
Proof.
  induction d as [|[k' v'] d IH]; simpl.
  - destruct (eq_dec k k); congruence.
  - destruct (eq_dec k' k) as [E|N]; simpl.
    + destruct (eq_dec k' k); congruence.
    + destruct (eq_dec k' k); congruence.
Qed.

Lemma get_set_ne d k k' v : k <> k' -> get (set d k v) k' = get d k'.
Proof.
  intros N; induction d as [|[k0 v0] d IH]; simpl.
  - destruct (eq_dec k k'); congruence.
  - destruct (eq_dec k0 k) as [E|N0]; simpl.
    + destruct (eq_dec k0 k'); congruence.
    + destruct (eq_dec k0 k'); congruence.
Qed.

Lemma get_set d k k' v :
  get (set d k v) k' = if eq_dec k k' then Some v else get d k'.
Proof.
  destruct (eq_dec k k') as [<-|N].
  - apply get_set_eq.
  - now apply get_set_ne.
Qed.

Lemma get_In d k v : get d k = Some v -> In (k, v) d.
Proof.
  induction d as [|[k' v'] d IH]; simpl; [discriminate|].
  destruct (eq_dec k' k) as [->|N]; intros E.
  - left; congruence.
  - right; auto.
Qed.

Lemma get_None d k : get d k = None <-> ~ In k (keys d).
Proof.
  induction d as [|[k' v'] d IH]; simpl.
  - tauto.
  - destruct (eq_dec k' k) as [->|N].
    + split; [discriminate | tauto].
    + rewrite IH; tauto.
Qed.

Lemma in_keys_get d k : In k (keys d) -> exists v, get d k = Some v.
Proof.
  intros I; destruct (get d k) as [v|] eqn:E; [eauto|].
  now apply get_None in E.
Qed.

Lemma get_keys d k v : get d k = Some v -> In k (keys d).
Proof.
  intros E; apply get_In in E. now apply (in_map fst) in E.
Qed.

Lemma NoDup_get d k v : NoDup (keys d) -> In (k, v) d -> get d k = Some v.
Proof.
  induction d as [|[k' v'] d IH]; simpl; [tauto|].
  intros ND [E|I]; inversion ND as [|? ? NI ND']; subst.
  - inversion E; subst. destruct (eq_dec k k); congruence.
  - destruct (eq_dec k' k) as [->|N]; [|auto].
    exfalso; apply NI. now apply (in_map fst) in I.
Qed.

Lemma keys_set_in d k v : In k (keys d) -> keys (set d k v) = keys d.
Proof.
  induction d as [|[k' v'] d IH]; simpl; [tauto|].
  intros I; destruct (eq_dec k' k) as [->|N]; simpl; [reflexivity|].
  f_equal; apply IH; tauto.
Qed.

Lemma set_notin d k v : ~ In k (keys d) -> set d k v = d ++ [(k, v)].
Proof.
  induction d as [|[k' v'] d IH]; simpl; [reflexivity|].
  intros NI; destruct (eq_dec k' k) as [->|N]; [tauto|].
  f_equal; apply IH; tauto.
Qed.

Lemma Forall_set (P : K * V -> Prop) d k v :
  (forall k0 v0, P (k0, v0) -> P (k0, v)) ->
  P (k, v) -> Forall P d -> Forall P (set d k v).
Proof.
  intros Hk Hv F; induction F as [|[k' v'] d Hx F IH]; simpl.
  - constructor; auto.
  - destruct (eq_dec k' k); constructor; eauto.
Qed.

Lemma update_Some d k (f : V -> V) d' :
  update d k f = Some d' <-> exists v, get d k = Some v /\ d' = set d k (f v).
Proof.
  unfold update; rewrite bind_Some; split; intros (v & E & E'); exists v;
    split; congruence.
Qed.

Lemma update_in d k (f : V -> V) :
  In k (keys d) -> exists v, get d k = Some v /\ update d k f = Some (set d k (f v)).
Proof.
  intros I; destruct (in_keys_get d k I) as (v & E); exists v; split; [auto|].
  unfold update; now rewrite E.
Qed.

Lemma comprehension_app (kvs : list (K * V)) d :
  NoDup (keys d ++ map fst kvs) ->
  fold_left (fun d kv => set d (fst kv) (snd kv)) kvs d = d ++ kvs.
Proof.
  revert d; induction kvs as [|[k v] kvs IH]; intros d ND; simpl.
  - now rewrite app_nil_r.
  - simpl in ND. rewrite set_notin.
    + rewrite IH.
      * now rewrite <- app_assoc.
      * unfold keys; rewrite map_app; simpl; now rewrite <- app_assoc.
    + apply NoDup_remove_2 in ND. intros I; apply ND, in_or_app; now left.
Qed.

Lemma comprehension_NoDup (kvs : list (K * V)) :
  NoDup (map fst kvs) -> comprehension kvs = kvs.
Proof. intros ND; unfold comprehension; now rewrite comprehension_app. Qed.
End DictFacts.
End DictFacts.

(** ** [sorted], [enumerate] and [unique] *)

Section SortedFacts.
Context {A : Type} (before : A -> A -> bool).

Lemma insert_perm (x : A) (l : list A) : Permutation (insert before x l) (x :: l).
Proof.
  induction l as [|y l IH]; simpl; [reflexivity|].
  destruct (before x y); [reflexivity|].
  rewrite IH. apply perm_swap.
Qed.

Lemma sorted_perm (l : list A) : Permutation (sorted before l) l.
Proof.
  induction l as [|x l IH]; simpl; [reflexivity|].
  rewrite insert_perm. now constructor.
Qed.

Lemma sorted_length (l : list A) : List.length (sorted before l) = List.length l.
Proof. apply Permutation_length, sorted_perm. Qed.

Lemma sorted_In (x : A) (l : list A) : In x (sorted before l) <-> In x l.
Proof.
  split; apply Permutation_in; [|symmetry]; apply sorted_perm.
Qed.

Hypothesis before_total : forall a b, before a b = false -> before b a = true.

Lemma insert_Sorted (x : A) (l : list A) :
  Sorted (fun a b => before a b = true) l ->
  Sorted (fun a b => before a b = true) (insert before x l).
Proof.
  induction 1 as [|y l S IH Hd]; simpl.
  - repeat constructor.
  - destruct (before x y) eqn:E.
    + repeat constructor; auto.
    + constructor; [assumption|].
      destruct l as [|z l]; simpl in *.
      * constructor; auto.
      * inversion Hd; subst.
        destruct (before x z); constructor; auto.
Qed.

Lemma sorted_Sorted (l : list A) :
  Sorted (fun a b => before a b = true) (sorted before l).
Proof.
  induction l as [|x l IH]; simpl; [constructor|].
  now apply insert_Sorted.
Qed.
End SortedFacts.

Lemma enumerate_from_snd {A : Type} (i : Z) (l : list A) :
  map snd (enumerate_from i l) = l.
Proof.
  revert i; induction l as [|x l IH]; intros i; simpl; [reflexivity|].
  now rewrite IH.
Qed.

Lemma enumerate_from_fst {A : Type} (i : Z) (l : list A) :
  map fst (enumerate_from i l) =
  map (fun n => i + Z.of_nat n) (seq 0 (List.length l)).
Proof.
  revert i; induction l as [|x l IH]; intros i; simpl; [reflexivity|].
  rewrite IH, <- seq_shift, map_map. f_equal; [lia|].
  apply map_ext; intros n; lia.
Qed.

Lemma enumerate_from_nth {A : Type} (i : Z) (l : list A) (n : nat) :
  nth_error (enumerate_from i l) n =
  option_map (fun x => (i + Z.of_nat n, x)) (nth_error l n).
Proof.
  revert i n; induction l as [|x l IH]; intros i [|n]; simpl; try reflexivity.
  - now rewrite Z.add_0_r.
  - rewrite IH. destruct (nth_error l n); simpl; [|reflexivity].
    do 2 f_equal; lia.
Qed.

Lemma mem_In {A : Type} `{EqDec A} (x : A) (l : list A) :
  mem x l = true <-> In x l.
Proof.
  induction l as [|y l IH]; simpl.
  - split; [discriminate | tauto].
  - destruct (eq_dec y x) as [->|N]; [tauto|].
    rewrite IH; tauto.
Qed.

Lemma unique_fold {A : Type} `{EqDec A} (l seen : list A) :
  let r := fold_left (fun seen x => if mem x seen then seen else seen ++ [x]) l seen in
  (NoDup seen -> NoDup r) /\ (forall x, In x r <-> In x seen \/ In x l).
Proof.
  revert seen; induction l as [|y l IH]; intros seen; simpl.
  - split; [auto | intros x; tauto].
  - destruct (IH (if mem y seen then seen else seen ++ [y])) as [ND I].
    split.
    + intros NDs; apply ND.
      destruct (mem y seen) eqn:E; [assumption|].
      apply NoDup_app; [assumption | repeat constructor; simpl; tauto |].
      intros x Ix [<-|[]]. apply mem_In in Ix; congruence.
    + intros x; rewrite I.
      destruct (mem y seen) eqn:E.
      * apply mem_In in E. split; [tauto|].
        intros [?|[<-|?]]; tauto.
      * rewrite in_app_iff; simpl; tauto.
Qed.

Lemma unique_NoDup {A : Type} `{EqDec A} (l : list A) : NoDup (unique l).
Proof. apply (unique_fold l []); constructor. Qed.

Lemma unique_In {A : Type} `{EqDec A} (x : A) (l : list A) :
  In x (unique l) <-> In x l.
Proof.
  unfold unique; rewrite (proj2 (unique_fold l [])); simpl; tauto.
Qed.

Lemma NoDup_map_inj {A B : Type} (f : A -> B) (l : list A) (a b : A) :
  NoDup (map f l) -> In a l -> In b l -> f a = f b -> a = b.
Proof.
  induction l as [|x l IH]; simpl; [tauto|].
  intros ND Ia Ib E; inversion ND as [|? ? NI ND']; subst.
  destruct Ia as [->|Ia], Ib as [->|Ib]; auto.
  - exfalso; apply NI; rewrite E; now apply in_map.
  - exfalso; apply NI; rewrite <- E; now apply in_map.
Qed.

(** ** The players of a table *)

Lemma notna_In (j : string) (l : list (option string)) :
  In j (notna l) <-> In (Some j) l.
Proof.
  induction l as [|[j'|] l IH]; simpl.
  - tauto.
  - rewrite IH; split; intros [E|I]; auto; left; congruence.
  - rewrite IH; split; [tauto|]. intros [E|I]; [discriminate | assumption].
Qed.

Lemma notna_NoDup (l : list (option string)) : NoDup l -> NoDup (notna l).
Proof.
  induction 1 as [|[j|] l NI ND IH]; simpl; auto.
  - constructor.
  - constructor; [|assumption]. now rewrite notna_In.
Qed.

Lemma universo_NoDup (df : DataFrame) : NoDup (universo df).
Proof. apply notna_NoDup, unique_NoDup. Qed.

Lemma universo_In (df : DataFrame) (j : string) :
  In j (universo df) <->
  exists p, In p df /\ (Jogador_1 p = Some j \/ Jogador_2 p = Some j).
Proof.
  unfold universo, jogadores, ravel_K.
  rewrite notna_In, unique_In, in_app_iff, !in_map_iff.
  split.
  - intros [(p & E & I)|(p & E & I)]; exists p; tauto.
  - intros (p & I & [E|E]); [left|right]; exists p; tauto.
Qed.

Lemma keys_map_const {V : Type} (v : V) (l : list string) :
  Dict.keys (map (fun j => (j, v)) l) = l.
Proof.
  unfold Dict.keys; rewrite map_map; simpl. apply map_id.
Qed.

Lemma pontuacoes_iniciais_eq (df : DataFrame) :
  pontuacoes_iniciais df = map (fun j => (j, PONTOS_INICIAIS)) (universo df).
Proof.
  unfold pontuacoes_iniciais. apply DictFacts.comprehension_NoDup.
  fold (universo df). change (NoDup (Dict.keys (map (fun j => (j, PONTOS_INICIAIS)) (universo df)))).
  rewrite keys_map_const. apply universo_NoDup.
Qed.

Lemma ganhos_zerados_eq (pont : dict string Z) :
  NoDup (Dict.keys pont) ->
  ganhos_zerados pont = map (fun j => (j, 0)) (Dict.keys pont).
Proof.
  intros ND; unfold ganhos_zerados. apply DictFacts.comprehension_NoDup.
  change (NoDup (Dict.keys (map (fun j => (j, 0)) (Dict.keys pont)))).
  now rewrite keys_map_const.
Qed.

Lemma partidas_do_dia_In (df : DataFrame) (d : Z) (p : partida) :
  In p (partidas_do_dia df d) <-> In p df /\ Data p = d.
Proof.
  unfold partidas_do_dia. rewrite sorted_In, filter_In, Z.eqb_eq. tauto.
Qed.

Lemma datas_unicas_In (df : DataFrame) (d : Z) :
  In d (datas_unicas df) <-> exists p, In p df /\ Data p = d.
Proof.
  unfold datas_unicas. rewrite sorted_In, unique_In, in_map_iff.
  split; intros (p & H); exists p; tauto.
Qed.

Lemma datas_unicas_NoDup (df : DataFrame) : NoDup (datas_unicas df).
Proof.
  unfold datas_unicas.
  eapply Permutation_NoDup; [symmetry; apply sorted_perm | apply unique_NoDup].
Qed.

(** ** One match *)

Lemma calc_pontos_vencedor_eq (rank_vencedor rank_perdedor : Z) :
  calc_pontos_vencedor rank_vencedor rank_perdedor =
  10 + bonus_upset rank_vencedor rank_perdedor + bonus_top rank_perdedor.
Proof.
  unfold calc_pontos_vencedor, bonus_upset, bonus_top,
    PONTOS_VITORIA, BONUS_UPSET, BONUS_TOP_1, BONUS_TOP_2, BONUS_TOP_3.
  rewrite Z.gtb_ltb.
  destruct (rank_perdedor <? rank_vencedor), (rank_perdedor =? 1),
    (rank_perdedor =? 2), (rank_perdedor =? 3); reflexivity.
Qed.

Lemma calc_pontos_vencedor_ge (rank_vencedor rank_perdedor : Z) :
  10 <= calc_pontos_vencedor rank_vencedor rank_perdedor.
Proof.
  rewrite calc_pontos_vencedor_eq. unfold bonus_upset, bonus_top.
  destruct (rank_perdedor <? rank_vencedor), (rank_perdedor =? 1),
    (rank_perdedor =? 2), (rank_perdedor =? 3); lia.
Qed.

Lemma processa_partida_presentes (n : Z) (mapa : dict string Z) (st : estado)
    (p : partida) (j1 j2 : string) :
  Jogador_1 p = Some j1 -> Jogador_2 p = Some j2 ->
  let vp := vencedor_perdedor j1 j2 (Resultado_J1 p) (Resultado_J2 p) in
  processa_partida n mapa st p =
  aplica st (fst vp) (snd vp)
    (calc_pontos_vencedor (Dict.get_or mapa (fst vp) (n + 1))
                          (Dict.get_or mapa (snd vp) (n + 1))).
Proof.
  intros E1 E2; unfold processa_partida, resultado_partida; rewrite E1, E2.
  destruct (vencedor_perdedor j1 j2 (Resultado_J1 p) (Resultado_J2 p)); reflexivity.
Qed.

Lemma processa_partida_ausente (n : Z) (mapa : dict string Z) (st : estado)
    (p : partida) :
  Jogador_1 p = None \/ Jogador_2 p = None ->
  processa_partida n mapa st p = Some st.
Proof.
  unfold processa_partida; intros [E|E]; rewrite E; [reflexivity|].
  now destruct (Jogador_1 p).
Qed.

Lemma aplica_Some (st : estado) (v l : string) (g : Z) (st' : estado) :
  aplica st v l g = Some st' <->
  exists a gv gl,
    Dict.get (pontuacoes st) v = Some a /\
    Dict.get (pontos_ganhos_dia st) v = Some gv /\
    Dict.get (Dict.set (pontos_ganhos_dia st) v (gv + g)) l = Some gl /\
    st' = {| pontuacoes :=
               Dict.set (Dict.set (pontuacoes st) v (a + g)) l
                 (Z.max 0 (Dict.get_or (Dict.set (pontuacoes st) v (a + g)) l 0
                           + PONTOS_DERROTA));
             pontos_ganhos_dia :=
               Dict.set (Dict.set (pontos_ganhos_dia st) v (gv + g)) l
                        (gl + PONTOS_DERROTA) |}.
Proof.
  unfold aplica. rewrite bind_Some. split.
  - intros (pont1 & U1 & R). apply DictFacts.update_Some in U1 as (a & Ea & ->).
    apply bind_Some in R as (g1 & U2 & R).
    apply DictFacts.update_Some in U2 as (gv & Egv & ->).
    apply bind_Some in R as (g2 & U3 & R).
    apply DictFacts.update_Some in U3 as (gl & Egl & ->).
    exists a, gv, gl. repeat split; auto. congruence.
  - intros (a & gv & gl & Ea & Egv & Egl & ->).
    exists (Dict.set (pontuacoes st) v (a + g)); split.
    + apply DictFacts.update_Some; eauto.
    + apply bind_Some. exists (Dict.set (pontos_ganhos_dia st) v (gv + g)); split.
      * apply DictFacts.update_Some; eauto.
      * apply bind_Some. eexists; split; [|reflexivity].
        apply DictFacts.update_Some; eauto.
Qed.

Lemma aplica_total (st : estado) (v l : string) (g : Z) :
  In v (Dict.keys (pontuacoes st)) ->
  In v (Dict.keys (pontos_ganhos_dia st)) ->
  In l (Dict.keys (pontos_ganhos_dia st)) ->
  exists st', aplica st v l g = Some st'.
Proof.
  intros Iv Igv Igl.
  destruct (DictFacts.in_keys_get _ _ Iv) as (a & Ea).
  destruct (DictFacts.in_keys_get _ _ Igv) as (gv & Egv).
  assert (Igl' : In l (Dict.keys (Dict.set (pontos_ganhos_dia st) v (gv + g))))
    by now rewrite DictFacts.keys_set_in.
  destruct (DictFacts.in_keys_get _ _ Igl') as (gl & Egl).
  eexists; apply aplica_Some; exists a, gv, gl; eauto.
Qed.

Lemma nao_negativas_set (pont : dict string Z) (j : string) (x : Z) :
  0 <= x -> nao_negativas pont -> nao_negativas (Dict.set pont j x).
Proof.
  intros Hx F; apply DictFacts.Forall_set; simpl; auto.
Qed.

Lemma nao_negativas_get (pont : dict string Z) (j : string) (x : Z) :
  nao_negativas pont -> Dict.get pont j = Some x -> 0 <= x.
Proof.
  intros F E; apply DictFacts.get_In in E.
  unfold nao_negativas in F; rewrite Forall_forall in F. apply (F _ E).
Qed.

Lemma aplica_nao_negativas (st : estado) (v l : string) (g : Z) (st' : estado) :
  0 <= g -> nao_negativas (pontuacoes st) ->
  aplica st v l g = Some st' -> nao_negativas (pontuacoes st').
Proof.
  intros Hg F E; apply aplica_Some in E as (a & gv & gl & Ea & _ & _ & ->); simpl.
  apply nao_negativas_set; [lia|].
  apply nao_negativas_set; [|assumption].
  pose proof (nao_negativas_get _ F Ea); lia.
Qed.

Lemma aplica_invariante (df : DataFrame) (st : estado) (v l : string) (g : Z)
    (st' : estado) :
  0 <= g -> In l (universo df) -> invariante df st ->
  aplica st v l g = Some st' -> invariante df st'.
Proof.
  intros Hg Il [Kp Kg F] E.
  pose proof (aplica_nao_negativas _ _ _ Hg F E) as F'.
  apply aplica_Some in E as (a & gv & gl & Ea & Egv & Egl & ->).
  apply DictFacts.get_keys in Ea, Egv.
  constructor; simpl; [| |assumption].
  - rewrite !DictFacts.keys_set_in; rewrite ?DictFacts.keys_set_in; auto; congruence.
  - rewrite !DictFacts.keys_set_in; rewrite ?DictFacts.keys_set_in; auto; congruence.
Qed.

Lemma vencedor_perdedor_cases (j1 j2 : string) (res1 res2 : Z) :
  vencedor_perdedor j1 j2 res1 res2 = (j1, j2) \/
  vencedor_perdedor j1 j2 res1 res2 = (j2, j1).
Proof. unfold vencedor_perdedor; destruct (res1 >? res2); auto. Qed.

Lemma processa_partida_nao_negativas (n : Z) (mapa : dict string Z)
    (st : estado) (p : partida) (st' : estado) :
  nao_negativas (pontuacoes st) ->
  processa_partida n mapa st p = Some st' -> nao_negativas (pontuacoes st').
Proof.
  intros F E.
  destruct (Jogador_1 p) as [j1|] eqn:E1; [destruct (Jogador_2 p) as [j2|] eqn:E2|].
  - rewrite (processa_partida_presentes _ _ _ _ E1 E2) in E.
    eapply aplica_nao_negativas; [| |exact E]; [|assumption].
    pose proof (calc_pontos_vencedor_ge
      (Dict.get_or mapa (fst (vencedor_perdedor j1 j2 (Resultado_J1 p) (Resultado_J2 p))) (n + 1))
      (Dict.get_or mapa (snd (vencedor_perdedor j1 j2 (Resultado_J1 p) (Resultado_J2 p))) (n + 1))).
    lia.
  - rewrite processa_partida_ausente in E by auto. congruence.
  - rewrite processa_partida_ausente in E by auto. congruence.
Qed.

Lemma processa_partida_invariante (df : DataFrame) (n : Z) (mapa : dict string Z)
    (st : estado) (p : partida) :
  In p df -> invariante df st ->
  exists st', processa_partida n mapa st p = Some st' /\ invariante df st'.
Proof.
  intros Ip I.
  destruct (Jogador_1 p) as [j1|] eqn:E1; [destruct (Jogador_2 p) as [j2|] eqn:E2|].
  - assert (U1 : In j1 (universo df)) by (apply universo_In; eauto).
    assert (U2 : In j2 (universo df)) by (apply universo_In; eauto).
    rewrite (processa_partida_presentes _ _ _ _ E1 E2).
    set (vp := vencedor_perdedor j1 j2 (Resultado_J1 p) (Resultado_J2 p)).
    set (g := calc_pontos_vencedor _ _).
    assert (Uv : In (fst vp) (universo df) /\ In (snd vp) (universo df)).
    { unfold vp; destruct (vencedor_perdedor_cases j1 j2 (Resultado_J1 p) (Resultado_J2 p))
        as [-> | ->]; simpl; auto. }
    destruct Uv as [Uv Ul].
    destruct (aplica_total st (fst vp) (snd vp) g) as (st' & E).
    + now rewrite (inv_pontuacoes I).
    + now rewrite (inv_ganhos I).
    + now rewrite (inv_ganhos I).
    + exists st'; split; [assumption|].
      eapply aplica_invariante; [| | |exact E]; auto.
      pose proof (calc_pontos_vencedor_ge
        (Dict.get_or mapa (fst vp) (n + 1)) (Dict.get_or mapa (snd vp) (n + 1))).
      fold g in H; lia.
  - exists st; split; [|assumption]. apply processa_partida_ausente; auto.
  - exists st; split; [|assumption]. apply processa_partida_ausente; auto.
Qed.

(** ** The matches of a day *)

Lemma loop_partidas_app (n : Z) (mapa : dict string Z) (st : estado)
    (ps1 ps2 : list partida) :
  loop_partidas n mapa st (ps1 ++ ps2) =
  do st' <- loop_partidas n mapa st ps1; loop_partidas n mapa st' ps2.
Proof.
  revert st; induction ps1 as [|p ps1 IH]; intros st; simpl; [reflexivity|].
  destruct (processa_partida n mapa st p) as [st1|]; simpl; auto.
Qed.

Lemma loop_partidas_invariante (df : DataFrame) (n : Z) (mapa : dict string Z)
    (ps : list partida) (st : estado) :
  (forall p, In p ps -> In p df) -> invariante df st ->
  exists st', loop_partidas n mapa st ps = Some st' /\ invariante df st'.
Proof.
  revert st; induction ps as [|p ps IH]; intros st Sub I; simpl.
  - eauto.
  - destruct (processa_partida_invariante n mapa p (Sub p (or_introl eq_refl)) I)
      as (st1 & E1 & I1).
    rewrite E1; simpl. apply IH; [|assumption].
    intros q Iq; apply Sub; now right.
Qed.

Lemma loop_partidas_nao_negativas (n : Z) (mapa : dict string Z)
    (ps : list partida) (st st' : estado) :
  nao_negativas (pontuacoes st) ->
  loop_partidas n mapa st ps = Some st' -> nao_negativas (pontuacoes st').
Proof.
  revert st; induction ps as [|p ps IH]; intros st F E; simpl in E.
  - congruence.
  - apply bind_Some in E as (st1 & E1 & E).
    eapply IH; [|exact E]. eapply processa_partida_nao_negativas; eauto.
Qed.

Lemma invariante_inicio_dia (df : DataFrame) (pont : dict string Z) :
  Dict.keys pont = universo df -> nao_negativas pont ->
  invariante df {| pontuacoes := pont; pontos_ganhos_dia := ganhos_zerados pont |}.
Proof.
  intros Kp F; constructor; simpl; auto.
  rewrite ganhos_zerados_eq, keys_map_const; auto.
  rewrite Kp; apply universo_NoDup.
Qed.

Lemma processa_dia_invariante (df : DataFrame) (pont : dict string Z) (d : Z) :
  Dict.keys pont = universo df -> nao_negativas pont ->
  exists st, processa_dia df pont d = Some st /\ invariante df st.
Proof.
  intros Kp F; unfold processa_dia.
  apply loop_partidas_invariante.
  - intros p Ip; now apply partidas_do_dia_In in Ip.
  - now apply invariante_inicio_dia.
Qed.

(** ** The days *)

Lemma loop_dias_app (df : DataFrame) (ac : acumulado) (ds1 ds2 : list Z) :
  loop_dias df ac (ds1 ++ ds2) =
  do ac' <- loop_dias df ac ds1; loop_dias df ac' ds2.
Proof.
  revert ac; induction ds1 as [|d ds1 IH]; intros ac; simpl; [reflexivity|].
  destruct (processa_dia df (pontuacoes_atuais ac) d) as [st|]; simpl; auto.
Qed.

Lemma loop_dias_invariante (df : DataFrame) (ds : list Z) (ac : acumulado) :
  Dict.keys (pontuacoes_atuais ac) = universo df ->
  nao_negativas (pontuacoes_atuais ac) ->
  exists ac', loop_dias df ac ds = Some ac' /\
    Dict.keys (pontuacoes_atuais ac') = universo df /\
    nao_negativas (pontuacoes_atuais ac').
Proof.
  revert ac; induction ds as [|d ds IH]; intros ac Kp F; simpl.
  - eauto.
  - destruct (processa_dia_invariante df d Kp F) as (st & E & I).
    rewrite E; simpl. apply IH; simpl; [apply (inv_pontuacoes I) | apply (inv_nao_negativas I)].
Qed.

Lemma acumulado_inicial_invariante (df : DataFrame) :
  Dict.keys (pontuacoes_atuais (acumulado_inicial df)) = universo df /\
  nao_negativas (pontuacoes_atuais (acumulado_inicial df)).
Proof.
  simpl; rewrite pontuacoes_iniciais_eq; split.
  - apply keys_map_const.
  - apply Forall_forall; intros [j x] I. apply in_map_iff in I as (j' & E & _).
    inversion E; subst; simpl. unfold PONTOS_INICIAIS; lia.
Qed.

(** [calculate_rankings] returns for every table: no [KeyError] is raised. *)
Lemma calculate_rankings_total (df : DataFrame) :
  exists r s t, calculate_rankings df = Some (r, s, t).
Proof.
  destruct df as [|p df]; simpl; [eauto|].
  destruct (acumulado_inicial_invariante (p :: df)) as [Kp F].
  destruct (loop_dias_invariante (p :: df) (datas_unicas (p :: df)) _ Kp F) as (ac & E & _).
  rewrite E; simpl; eauto.
Qed.

Lemma antes_do_dia_invariante (df : DataFrame) (d : Z) (pont : dict string Z) :
  antes_do_dia df d pont ->
  Dict.keys pont = universo df /\ nao_negativas pont.
Proof.
  intros (ds & ds' & ac & _ & E & <-).
  destruct (acumulado_inicial_invariante df) as [Kp F].
  destruct (loop_dias_invariante df ds _ Kp F) as (ac' & E' & I).
  congruence.
Qed.

Lemma ponto_do_fold_invariante (df : DataFrame) (d : Z) (st : estado) :
  ponto_do_fold df d st -> invariante df st.
Proof.
  intros (pont & feitas & restantes & A & Ep & E).
  destruct (antes_do_dia_invariante A) as [Kp F].
  destruct (@loop_partidas_invariante df (Z.of_nat (List.length (jogadores df)))
              (mapa_ranking (ranking pont)) feitas
              {| pontuacoes := pont; pontos_ganhos_dia := ganhos_zerados pont |})
    as (st' & E' & I).
  - intros p Ip. apply (partidas_do_dia_In df d). rewrite Ep. apply in_or_app; now left.
  - now apply invariante_inicio_dia.
  - congruence.
Qed.

(** ** The pre-day ranking and its rank map *)

Lemma ranking_perm (pont : dict string Z) : Permutation (ranking pont) pont.
Proof. apply sorted_perm. Qed.

Lemma ranking_Sorted (pont : dict string Z) :
  Sorted (fun a b => snd b <= snd a) (ranking pont).
Proof.
  unfold ranking.
  eapply Sorted_ind with (P := Sorted (fun a b : string * Z => snd b <= snd a)).
  3: { apply sorted_Sorted. intros a b E. apply Z.leb_gt in E. apply Z.leb_le. lia. }
  - constructor.
  - intros a l _ S Hd. constructor; [assumption|].
    destruct Hd as [|b l Hb]; constructor. now apply Z.leb_le.
Qed.

Lemma ranking_StronglySorted (pont : dict string Z) :
  StronglySorted (fun a b => snd b <= snd a) (ranking pont).
Proof.
  apply Sorted_StronglySorted; [|apply ranking_Sorted].
  intros a b c; lia.
Qed.

Lemma ranking_keys (pont : dict string Z) :
  Permutation (map fst (ranking pont)) (Dict.keys pont).
Proof. apply Permutation_map, ranking_perm. Qed.

Lemma ranking_keys_NoDup (pont : dict string Z) :
  NoDup (Dict.keys pont) -> NoDup (map fst (ranking pont)).
Proof.
  intros ND. eapply Permutation_NoDup; [symmetry; apply ranking_keys | assumption].
Qed.

Lemma mapa_ranking_eq (r : list (string * Z)) :
  NoDup (map fst r) ->
  mapa_ranking r = map (fun ij => (fst (snd ij), fst ij + 1)) (enumerate r).
Proof.
  intros ND; unfold mapa_ranking. apply DictFacts.comprehension_NoDup.
  rewrite map_map; simpl.
  rewrite <- (map_map snd fst). unfold enumerate. now rewrite enumerate_from_snd.
Qed.

Lemma mapa_ranking_keys (r : list (string * Z)) :
  NoDup (map fst r) -> Dict.keys (mapa_ranking r) = map fst r.
Proof.
  intros ND; rewrite mapa_ranking_eq by assumption.
  unfold Dict.keys; rewrite map_map; simpl.
  rewrite <- (map_map snd fst). unfold enumerate. now rewrite enumerate_from_snd.
Qed.

Lemma mapa_ranking_values (r : list (string * Z)) :
  NoDup (map fst r) ->
  map snd (mapa_ranking r) = map Z.of_nat (seq 1 (List.length r)).
Proof.
  intros ND; rewrite mapa_ranking_eq by assumption.
  rewrite map_map; simpl.
  rewrite <- (map_map fst (fun i => i + 1)). unfold enumerate.
  rewrite enumerate_from_fst, map_map, <- seq_shift, map_map.
  apply map_ext; intros n; lia.
Qed.

Lemma mapa_ranking_get (r : list (string * Z)) (j : string) (k : Z) :
  NoDup (map fst r) ->
  Dict.get (mapa_ranking r) j = Some k <->
  1 <= k /\ exists x, nth_error r (Z.to_nat (k - 1)) = Some (j, x).
Proof.
  intros ND. split.
  - intros E; apply DictFacts.get_In in E.
    rewrite mapa_ranking_eq in E by assumption.
    apply in_map_iff in E as ([i [j' x]] & E & I); simpl in E; inversion E; subst.
    apply In_nth_error in I as (n & En).
    unfold enumerate in En; rewrite enumerate_from_nth in En.
    destruct (nth_error r n) as [[j0 x0]|] eqn:Er; simpl in En; [|discriminate].
    inversion En; subst. split; [lia|]. exists x.
    rewrite <- Er; f_equal; lia.
  - intros (Hk & x & En).
    apply DictFacts.NoDup_get.
    + now rewrite mapa_ranking_keys.
    + rewrite mapa_ranking_eq by assumption.
      apply in_map_iff. exists (k - 1, (j, x)); simpl; split; [f_equal; lia|].
      apply (nth_error_In _ (Z.to_nat (k - 1))).
      unfold enumerate; rewrite enumerate_from_nth, En; simpl.
      do 2 f_equal; lia.
Qed.

Lemma mapa_ranking_inj (r : list (string * Z)) (j1 j2 : string) (k : Z) :
  NoDup (map fst r) ->
  Dict.get (mapa_ranking r) j1 = Some k -> Dict.get (mapa_ranking r) j2 = Some k ->
  j1 = j2.
Proof.
  intros ND E1 E2. apply DictFacts.get_In in E1, E2.
  assert (NV : NoDup (map snd (mapa_ranking r))).
  { rewrite mapa_ranking_values by assumption.
    apply Injective_map_NoDup; [intros a b; apply Nat2Z.inj | apply seq_NoDup]. }
  pose proof (NoDup_map_inj snd _ _ _ NV E1 E2 eq_refl) as E. congruence.
Qed.

(** ** The two collections the engine returns *)

Lemma loop_dias_get_outro (df : DataFrame) (ds : list Z) (ac ac' : acumulado) (d : Z) :
  loop_dias df ac ds = Some ac' -> ~ In d ds ->
  Dict.get (rankings_diarios ac') d = Dict.get (rankings_diarios ac) d /\
  Dict.get (stats_diarias ac') d = Dict.get (stats_diarias ac) d.
Proof.
  revert ac; induction ds as [|d0 ds IH]; intros ac E NI; simpl in E.
  - inversion E; auto.
  - apply bind_Some in E as (st & _ & E).
    destruct (IH _ E) as [Er Es]; [simpl in NI; tauto|].
    simpl in Er, Es. rewrite Er, Es.
    rewrite !DictFacts.get_set_ne; [auto | |]; simpl in NI; intros ->; tauto.
Qed.

Lemma loop_dias_keys (df : DataFrame) (ds : list Z) (ac ac' : acumulado) :
  loop_dias df ac ds = Some ac' ->
  NoDup (Dict.keys (rankings_diarios ac) ++ ds) ->
  NoDup (Dict.keys (stats_diarias ac) ++ ds) ->
  Dict.keys (rankings_diarios ac') = Dict.keys (rankings_diarios ac) ++ ds /\
  Dict.keys (stats_diarias ac') = Dict.keys (stats_diarias ac) ++ ds.
Proof.
  revert ac; induction ds as [|d ds IH]; intros ac E NDr NDs; simpl in E.
  - inversion E; subst; now rewrite !app_nil_r.
  - apply bind_Some in E as (st & _ & E).
    assert (Nr : ~ In d (Dict.keys (rankings_diarios ac))).
    { apply NoDup_remove_2 in NDr. intros I; apply NDr, in_or_app; now left. }
    assert (Ns : ~ In d (Dict.keys (stats_diarias ac))).
    { apply NoDup_remove_2 in NDs. intros I; apply NDs, in_or_app; now left. }
    apply IH in E; simpl in *.
    + rewrite !DictFacts.set_notin in E by assumption.
      unfold Dict.keys in *; rewrite !map_app in E; simpl in E.
      now rewrite <- !app_assoc in E.
    + rewrite DictFacts.set_notin by assumption.
      unfold Dict.keys in *; rewrite map_app; simpl. now rewrite <- app_assoc.
    + rewrite DictFacts.set_notin by assumption.
      unfold Dict.keys in *; rewrite map_app; simpl. now rewrite <- app_assoc.
Qed.

Lemma loop_dias_get_dia (df : DataFrame) (ds1 ds2 : list Z) (d : Z) (ac ac' : acumulado) :
  loop_dias df ac (ds1 ++ d :: ds2) = Some ac' -> ~ In d ds2 ->
  exists ac1 st,
    loop_dias df ac ds1 = Some ac1 /\
    processa_dia df (pontuacoes_atuais ac1) d = Some st /\
    Dict.get (rankings_diarios ac') d = Some (ranking (pontuacoes st)) /\
    Dict.get (stats_diarias ac') d = Some {| pontos_ganhos := pontos_ganhos_dia st |}.
Proof.
  intros E NI. rewrite loop_dias_app in E.
  apply bind_Some in E as (ac1 & E1 & E). simpl in E.
  apply bind_Some in E as (st & Ed & E).
  edestruct loop_dias_get_outro as [Hr Hs]; [exact E | exact NI |].
  exists ac1, st; repeat split; auto.
  - rewrite Hr; simpl. apply DictFacts.get_set_eq.
  - rewrite Hs; simpl. apply DictFacts.get_set_eq.
Qed.

(** ** What one match writes *)

Lemma aplica_pontuacoes (st : estado) (v l : string) (g : Z) (st' : estado) :
  aplica st v l g = Some st' -> v <> l ->
  exists a,
    Dict.get (pontuacoes st) v = Some a /\
    Dict.get (pontuacoes st') v = Some (a + g) /\
    Dict.get (pontuacoes st') l =
      Some (Z.max 0 (Dict.get_or (pontuacoes st) l 0 + PONTOS_DERROTA)) /\
    forall x, x <> v -> x <> l ->
      Dict.get (pontuacoes st') x = Dict.get (pontuacoes st) x.
Proof.
  intros E N; apply aplica_Some in E as (a & gv & gl & Ea & _ & _ & ->); simpl.
  exists a; split; [assumption|]. split; [|split].
  - rewrite DictFacts.get_set_ne by congruence. apply DictFacts.get_set_eq.
  - rewrite DictFacts.get_set_eq. unfold Dict.get_or.
    now rewrite DictFacts.get_set_ne by assumption.
  - intros x Nv Nl. now rewrite !DictFacts.get_set_ne by congruence.
Qed.

Lemma aplica_ganhos (st : estado) (v l : string) (g : Z) (st' : estado) (x : string) :
  aplica st v l g = Some st' ->
  Dict.get (pontos_ganhos_dia st') x =
  option_map (fun y => y + (if eq_dec x v then g else 0)
                         + (if eq_dec x l then PONTOS_DERROTA else 0))
             (Dict.get (pontos_ganhos_dia st) x).
Proof.
  intros E; apply aplica_Some in E as (a & gv & gl & _ & Egv & Egl & ->); simpl.
  rewrite DictFacts.get_set in Egl. rewrite !DictFacts.get_set.
  destruct (eq_dec l x) as [->|Nl].
  - destruct (eq_dec x x) as [_|]; [|congruence].
    destruct (eq_dec v x) as [->|Nv].
    + destruct (eq_dec x x) as [_|]; [|congruence].
      rewrite Egv; simpl. inversion Egl; subst. f_equal.
    + destruct (eq_dec x v) as [->|_]; [congruence|].
      rewrite Egl; simpl. f_equal; lia.
  - destruct (eq_dec x l) as [->|_]; [congruence|].
    destruct (eq_dec v x) as [->|Nv].
    + destruct (eq_dec x x) as [_|]; [|congruence].
      rewrite Egv; simpl. f_equal; lia.
    + destruct (eq_dec x v) as [->|_]; [congruence|].
      destruct (Dict.get (pontos_ganhos_dia st) x); simpl; [f_equal; lia | reflexivity].
Qed.

(* ------------------------------------------------------------------ *)
(** * The scoring rules *)

(** C1. For a match between two present players that the engine
    processes, the winner's points are the base 10, plus 5 exactly when the
    winner's pre-day rank is strictly greater than the loser's, plus 25, 20 or
    15 when the loser's pre-day rank is 1, 2 or 3, all added; this amount is
    what the winner's score and the winner's entry of the day's record grow
    by (when the two players differ); and it is 40 whenever the loser's rank
    is 1 and the winner's rank is worse than 1. *)
Theorem ganho_do_vencedor (n : Z) (mapa : dict string Z) (st st' : estado)
    (p : partida) (j1 j2 : string) :
  Jogador_1 p = Some j1 -> Jogador_2 p = Some j2 ->
  processa_partida n mapa st p = Some st' ->
  exists vencedor perdedor ganho,
    resultado_partida n mapa j1 j2 (Resultado_J1 p) (Resultado_J2 p)
      = (vencedor, perdedor, ganho) /\
    let rank_vencedor := Dict.get_or mapa vencedor (n + 1) in
    let rank_perdedor := Dict.get_or mapa perdedor (n + 1) in
    ganho = 10 + (if rank_perdedor <? rank_vencedor then 5 else 0)
               + (if rank_perdedor =? 1 then 25
                  else if rank_perdedor =? 2 then 20
                  else if rank_perdedor =? 3 then 15 else 0) /\
    (rank_perdedor = 1 -> 1 < rank_vencedor -> ganho = 40) /\
    (vencedor <> perdedor ->
     exists a gv,
       Dict.get (pontuacoes st) vencedor = Some a /\
       Dict.get (pontuacoes st') vencedor = Some (a + ganho) /\
       Dict.get (pontos_ganhos_dia st) vencedor = Some gv /\
       Dict.get (pontos_ganhos_dia st') vencedor = Some (gv + ganho)).
Proof.
  intros E1 E2 E.
  rewrite (processa_partida_presentes _ _ _ _ E1 E2) in E.
  unfold resultado_partida.
  destruct (vencedor_perdedor j1 j2 (Resultado_J1 p) (Resultado_J2 p)) as [v l].
  simpl in E.
  exists v, l, (calc_pontos_vencedor (Dict.get_or mapa v (n + 1))
                                     (Dict.get_or mapa l (n + 1))).
  split; [reflexivity|]. cbv zeta.
  split; [apply calc_pontos_vencedor_eq|]. split.
  - intros Ep Ev. rewrite calc_pontos_vencedor_eq, Ep.
    unfold bonus_upset, bonus_top; simpl.
    destruct (1 <? Dict.get_or mapa v (n + 1)) eqn:L; [reflexivity|].
    apply Z.ltb_ge in L; lia.
  - intros N.
    edestruct aplica_pontuacoes as (a & Ea & Ea' & _); [exact E | exact N |].
    pose proof (@aplica_ganhos _ _ _ _ _ v E) as Eg.
    destruct (eq_dec v v) as [_|]; [|congruence].
    destruct (eq_dec v l) as [|_]; [congruence|].
    apply aplica_Some in E as (a0 & gv & gl & _ & Egv & _ & _).
    exists a, gv; repeat split; auto.
    rewrite Eg, Egv; simpl. f_equal; lia.
Qed.

Lemma ganho_do_vencedor_witness :
  exists st',
    processa_partida 4 mapa_exemplo estado_exemplo partida_exemplo = Some st' /\
    Dict.get (pontuacoes st') "Ana" = Some 1040.
Proof.
  eexists; split; [reflexivity|].
  destruct (@ganho_do_vencedor 4 mapa_exemplo estado_exemplo _ partida_exemplo
              "Ana" "Bia" eq_refl eq_refl eq_refl)
    as (v & l & g & R & _ & _ & _).
  reflexivity.
Defined.

(** C4. For a match between two present players, the day's record gets
    the amounts as computed, before any clamp: the winner's entry grows by the
    full gain and the loser's entry by [PONTOS_DERROTA] (-10), whatever the
    loser's stored score becomes under the zero floor. *)
Theorem ganhos_sem_clamp (n : Z) (mapa : dict string Z) (st st' : estado)
    (p : partida) (j1 j2 : string) :
  Jogador_1 p = Some j1 -> Jogador_2 p = Some j2 ->
  processa_partida n mapa st p = Some st' ->
  exists vencedor perdedor ganho,
    resultado_partida n mapa j1 j2 (Resultado_J1 p) (Resultado_J2 p)
      = (vencedor, perdedor, ganho) /\
    (forall x,
       Dict.get (pontos_ganhos_dia st') x =
       option_map (fun y => y + (if eq_dec x vencedor then ganho else 0)
                              + (if eq_dec x perdedor then -10 else 0))
                  (Dict.get (pontos_ganhos_dia st) x)) /\
    (vencedor <> perdedor ->
     exists gv gl,
       Dict.get (pontos_ganhos_dia st) vencedor = Some gv /\
       Dict.get (pontos_ganhos_dia st) perdedor = Some gl /\
       Dict.get (pontos_ganhos_dia st') vencedor = Some (gv + ganho) /\
       Dict.get (pontos_ganhos_dia st') perdedor = Some (gl - 10) /\
       Dict.get (pontuacoes st') perdedor =
         Some (Z.max 0 (Dict.get_or (pontuacoes st) perdedor 0 - 10))).
Proof.
  intros E1 E2 E.
  rewrite (processa_partida_presentes _ _ _ _ E1 E2) in E.
  unfold resultado_partida.
  destruct (vencedor_perdedor j1 j2 (Resultado_J1 p) (Resultado_J2 p)) as [v l].
  simpl in E.
  set (g := calc_pontos_vencedor _ _) in *.
  exists v, l, g. split; [reflexivity|].
  assert (Eg : forall x,
    Dict.get (pontos_ganhos_dia st') x =
    option_map (fun y => y + (if eq_dec x v then g else 0)
                           + (if eq_dec x l then -10 else 0))
               (Dict.get (pontos_ganhos_dia st) x)).
  { intros x. apply (@aplica_ganhos _ _ _ _ _ x E). }
  split; [exact Eg|].
  intros N.
  edestruct aplica_pontuacoes as (a & _ & _ & El & _); [exact E | exact N |].
  pose proof (Eg v) as Ev. pose proof (Eg l) as El'.
  destruct (eq_dec v v) as [_|]; [|congruence].
  destruct (eq_dec l l) as [_|]; [|congruence].
  destruct (eq_dec v l) as [|_]; [congruence|].
  destruct (eq_dec l v) as [|_]; [congruence|].
  apply aplica_Some in E as (a0 & gv & gl & _ & Egv & Egl & _).
  rewrite DictFacts.get_set_ne in Egl by assumption.
  exists gv, gl. rewrite Ev, El', Egv, Egl, El; simpl.
  unfold PONTOS_DERROTA.
  repeat split; f_equal; lia.
Qed.

Lemma ganhos_sem_clamp_witness :
  exists st',
    processa_partida 2 mapa_quase_zero estado_quase_zero partida_exemplo = Some st' /\
    Dict.get (pontuacoes st') "Bia" = Some 0 /\
    Dict.get (pontos_ganhos_dia st') "Bia" = Some (-10).
Proof.
  eexists; split; [reflexivity|].
  destruct (@ganhos_sem_clamp 2 mapa_quase_zero estado_quase_zero _ partida_exemplo
              "Ana" "Bia" eq_refl eq_refl eq_refl)
    as (v & l & g & _).
  split; reflexivity.
Defined.

(** On one day with 101 losses Bia's score stops at 0, a drop of 1000,
    and the day's record still shows 101 times -10. *)
Example derrotas_sem_clamp :
  exists r s t,
    calculate_rankings tabela_derrotas = Some (r, s, t) /\
    Dict.get r 1 = Some [("Ana", 4030); ("Bia", 0)] /\
    option_map (fun sd => Dict.get (pontos_ganhos sd) "Bia") (Dict.get s 1)
      = Some (Some (-1010)).
Proof. do 3 eexists; split; [vm_compute; reflexivity|]. split; reflexivity. Qed.

(* ------------------------------------------------------------------ *)
(** * Winner, loser and skipped rows *)

Lemma ponto_do_fold_inicio (df : DataFrame) (d : Z) (pont : dict string Z) :
  antes_do_dia df d pont ->
  ponto_do_fold df d
    {| pontuacoes := pont; pontos_ganhos_dia := ganhos_zerados pont |}.
Proof.
  intros A. exists pont, [], (partidas_do_dia df d). repeat split; auto.
Qed.

(** C5. At every point of the fold, a match between two present players
    is scored, without error, from one comparison: player 1 wins when score 1
    is strictly greater than score 2; in every other case, equal scores
    included, player 2 wins, which for two different players means the gain
    goes to player 2 and the clamped loss to player 1, and the state
    changes. *)
Theorem vencedor_por_comparacao (df : DataFrame) (d : Z) (st : estado)
    (p : partida) (j1 j2 : string) (n : Z) (mapa : dict string Z) :
  ponto_do_fold df d st -> In p df ->
  Jogador_1 p = Some j1 -> Jogador_2 p = Some j2 ->
  exists st',
    processa_partida n mapa st p = Some st' /\
    (Resultado_J2 p < Resultado_J1 p ->
     processa_partida n mapa st p =
     aplica st j1 j2 (calc_pontos_vencedor (Dict.get_or mapa j1 (n + 1))
                                           (Dict.get_or mapa j2 (n + 1)))) /\
    (Resultado_J1 p <= Resultado_J2 p ->
     processa_partida n mapa st p =
     aplica st j2 j1 (calc_pontos_vencedor (Dict.get_or mapa j2 (n + 1))
                                           (Dict.get_or mapa j1 (n + 1))) /\
     (j1 <> j2 ->
      st' <> st /\
      exists a1 a2 g,
        10 <= g /\
        Dict.get (pontuacoes st) j1 = Some a1 /\
        Dict.get (pontuacoes st) j2 = Some a2 /\
        Dict.get (pontuacoes st') j2 = Some (a2 + g) /\
        Dict.get (pontuacoes st') j1 = Some (Z.max 0 (a1 - 10)))).
Proof.
  intros Pf Ip E1 E2.
  apply ponto_do_fold_invariante in Pf.
  destruct (@processa_partida_invariante df n mapa st p Ip Pf) as (st' & E & _).
  exists st'; split; [assumption|].
  pose proof (processa_partida_presentes n mapa st p E1 E2) as Ep.
  unfold vencedor_perdedor in Ep. rewrite Z.gtb_ltb in Ep.
  split.
  - intros L. apply Z.ltb_lt in L. now rewrite L in Ep.
  - intros L. apply Z.ltb_ge in L. rewrite L in Ep; simpl in Ep.
    split; [assumption|]. intros N.
    rewrite Ep in E.
    edestruct aplica_pontuacoes as (a2 & Ea2 & Ea2' & Ea1' & _);
      [exact E | congruence |].
    assert (I1 : In j1 (Dict.keys (pontuacoes st))).
    { rewrite (inv_pontuacoes Pf). apply universo_In; eauto. }
    destruct (DictFacts.in_keys_get _ _ I1) as (a1 & Ea1).
    pose proof (calc_pontos_vencedor_ge (Dict.get_or mapa j2 (n + 1))
                                        (Dict.get_or mapa j1 (n + 1))) as Hg.
    split.
    + intros ->. rewrite Ea2 in Ea2'. inversion Ea2'. lia.
    + eexists a1, a2, _. repeat split; eauto.
      rewrite Ea1'. unfold Dict.get_or, PONTOS_DERROTA. rewrite Ea1.
      f_equal; lia.
Qed.

Lemma vencedor_por_comparacao_witness :
  exists pont st',
    antes_do_dia tabela_exemplo 2 pont /\
    processa_partida 4 (mapa_ranking (ranking pont))
      {| pontuacoes := pont; pontos_ganhos_dia := ganhos_zerados pont |}
      empate_exemplo = Some st' /\
    Dict.get (pontuacoes st') "Ana" = Some 1065 /\
    Dict.get (pontuacoes st') "Caio" = Some 980.
Proof.
  assert (A : antes_do_dia tabela_exemplo 2
                [("Bia", 1015); ("Ana", 1040); ("Caio", 990)]).
  { exists [1], [].
    eexists. split; [reflexivity|]. split; [vm_compute; reflexivity | reflexivity]. }
  eexists; eexists; split; [exact A|].
  destruct (@vencedor_por_comparacao tabela_exemplo 2 _ empate_exemplo
              "Caio" "Ana" 4
              (mapa_ranking (ranking [("Bia", 1015); ("Ana", 1040); ("Caio", 990)]))
              (ponto_do_fold_inicio A)
              (or_intror (or_intror (or_introl eq_refl))) eq_refl eq_refl)
    as (st' & E & _).
  split; [reflexivity|]. split; reflexivity.
Defined.

(** C6. A row with a missing player leaves the state as it is: no score
    changes, the day's record gets nothing, the rest of the day goes on as if
    the row were not there, and the engine returns a result for every table
    that holds such a row. *)
Theorem partida_incompleta_ignorada (n : Z) (mapa : dict string Z)
    (st : estado) (p : partida) :
  Jogador_1 p = None \/ Jogador_2 p = None ->
  processa_partida n mapa st p = Some st /\
  (forall feitas restantes,
     loop_partidas n mapa st (feitas ++ p :: restantes) =
     loop_partidas n mapa st (feitas ++ restantes)) /\
  (forall df, In p df -> exists r s t, calculate_rankings df = Some (r, s, t)).
Proof.
  intros M. split; [now apply processa_partida_ausente|]. split.
  - intros feitas restantes. rewrite !loop_partidas_app.
    destruct (loop_partidas n mapa st feitas) as [st1|]; simpl; [|reflexivity].
    now rewrite processa_partida_ausente.
  - intros df _. apply calculate_rankings_total.
Qed.

Lemma partida_incompleta_ignorada_witness :
  processa_partida 4 mapa_exemplo estado_exemplo incompleta_exemplo
    = Some estado_exemplo.
Proof.
  apply (@partida_incompleta_ignorada 4 mapa_exemplo estado_exemplo
           incompleta_exemplo (or_introl eq_refl)).
Defined.

(** C7. For the empty table the engine returns empty collections, and
    no error. *)
Theorem tabela_vazia : calculate_rankings [] = Some ([], [], sem_dados).
Proof. reflexivity. Qed.

(* ------------------------------------------------------------------ *)
(** * The fold and its outputs *)

Lemma ponto_do_fold_fim (df : DataFrame) (d : Z) (pont : dict string Z) (st : estado) :
  antes_do_dia df d pont -> processa_dia df pont d = Some st ->
  ponto_do_fold df d st.
Proof.
  intros A E. exists pont, (partidas_do_dia df d), [].
  rewrite app_nil_r. repeat split; auto.
Qed.

Lemma calculate_rankings_saida (df : DataFrame)
    (r : dict Z (list (string * Z))) (s : dict Z stats_dia) (t : tabela) :
  calculate_rankings df = Some (r, s, t) ->
  Dict.keys r = datas_unicas df /\
  Dict.keys s = datas_unicas df /\
  forall d, In d (datas_unicas df) ->
    exists pont st,
      antes_do_dia df d pont /\
      processa_dia df pont d = Some st /\
      Dict.get r d = Some (ranking (pontuacoes st)) /\
      Dict.get s d = Some {| pontos_ganhos := pontos_ganhos_dia st |}.
Proof.
  destruct df as [|p0 df0]; simpl.
  - intros E; inversion E; subst. repeat split; auto. intros d [].
  - set (df := p0 :: df0). intros E.
    apply bind_Some in E as (ac & E & R). inversion R; subst; clear R.
    pose proof (datas_unicas_NoDup df) as ND.
    edestruct loop_dias_keys as [Kr Ks]; [exact E | exact ND | exact ND |].
    simpl in Kr, Ks. repeat split; auto.
    intros d Id. apply in_split in Id as (ds1 & ds2 & Eds).
    rewrite Eds in E, ND.
    assert (NI : ~ In d ds2).
    { apply NoDup_remove_2 in ND. intros I; apply ND, in_or_app; now right. }
    edestruct loop_dias_get_dia as (ac1 & st & E1 & Ed & Gr & Gs);
      [exact E | exact NI |].
    exists (pontuacoes_atuais ac1), st. repeat split; auto.
    exists ds1, ds2, ac1. repeat split; auto.
Qed.

(** C2. Every stored score is at least 0 at every point of the fold:
    the initial scores are; one match keeps them so, because the loser's new
    score is the maximum of 0 and the old score minus 10 while the winner's is
    the old score plus the gain, unclamped; and every snapshot the engine
    returns holds only scores that are at least 0. *)
Theorem pontuacoes_nunca_negativas (df : DataFrame) :
  (forall j x, In (j, x) (pontuacoes_iniciais df) -> 0 <= x) /\
  (forall d st j x,
     ponto_do_fold df d st -> In (j, x) (Dict.items (pontuacoes st)) -> 0 <= x) /\
  (forall n mapa st p st',
     nao_negativas (pontuacoes st) ->
     processa_partida n mapa st p = Some st' ->
     nao_negativas (pontuacoes st')) /\
  (forall st vencedor perdedor ganho st',
     aplica st vencedor perdedor ganho = Some st' -> vencedor <> perdedor ->
     exists a,
       Dict.get (pontuacoes st) vencedor = Some a /\
       Dict.get (pontuacoes st') vencedor = Some (a + ganho) /\
       Dict.get (pontuacoes st') perdedor =
         Some (Z.max 0 (Dict.get_or (pontuacoes st) perdedor 0 + PONTOS_DERROTA))) /\
  exists r s t,
    calculate_rankings df = Some (r, s, t) /\
    forall d snapshot j x, In (d, snapshot) r -> In (j, x) snapshot -> 0 <= x.
Proof.
  split; [|split; [|split; [|split]]].
  - intros j x I.
    destruct (acumulado_inicial_invariante df) as [_ F]; simpl in F.
    unfold nao_negativas in F; rewrite Forall_forall in F. apply (F _ I).
  - intros d st j x Pf I. apply ponto_do_fold_invariante in Pf.
    pose proof (inv_nao_negativas Pf) as F.
    unfold nao_negativas in F; rewrite Forall_forall in F. apply (F _ I).
  - intros n mapa st p st'. apply processa_partida_nao_negativas.
  - intros st v l g st' E N.
    edestruct aplica_pontuacoes as (a & Ea & Ev & El & _); [exact E | exact N |].
    eauto.
  - destruct (calculate_rankings_total df) as (r & s & t & E).
    exists r, s, t; split; [assumption|].
    intros d snap j x Id Ij.
    destruct (calculate_rankings_saida _ E) as (Kr & _ & Hd).
    assert (Idk : In d (datas_unicas df)).
    { rewrite <- Kr. now apply (in_map fst) in Id. }
    destruct (Hd d Idk) as (pont & st & A & Ed & Gr & _).
    assert (Esnap : Dict.get r d = Some snap).
    { apply DictFacts.NoDup_get; [|assumption].
      rewrite Kr; apply datas_unicas_NoDup. }
    rewrite Gr in Esnap; inversion Esnap; subst.
    pose proof (ponto_do_fold_invariante (ponto_do_fold_fim A Ed)) as I.
    pose proof (inv_nao_negativas I) as F.
    unfold nao_negativas in F; rewrite Forall_forall in F.
    apply (F (j, x)). apply (Permutation_in _ (ranking_perm _) Ij).
Qed.

Lemma partidas_do_dia_Sorted (df : DataFrame) (d : Z) :
  Sorted (fun a b => ID_Partida a <= ID_Partida b) (partidas_do_dia df d).
Proof.
  unfold partidas_do_dia.
  eapply Sorted_ind
    with (P := Sorted (fun a b : partida => ID_Partida a <= ID_Partida b)).
  3: { apply sorted_Sorted. intros a b E. apply Z.leb_gt in E. apply Z.leb_le. lia. }
  - constructor.
  - intros a l _ S Hd. constructor; [assumption|].
    destruct Hd as [|b l Hb]; constructor. now apply Z.leb_le.
Qed.

(** C3. On every day of the fold the rank map comes from the scores as
    they are before the day's matches: the scores sorted in descending order,
    rank [k] for the player at position [k] counted from 1.  The day's matches
    are the rows of that date in ascending order of [ID_Partida], and every
    one of them, whatever the matches before it did to the scores, is scored
    with that same map. *)
Theorem mapa_pre_dia (df : DataFrame) (d : Z) (pont : dict string Z) :
  antes_do_dia df d pont ->
  let n := Z.of_nat (List.length (jogadores df)) in
  let ranking_anterior := ranking pont in
  let mapa := mapa_ranking ranking_anterior in
  let inicio := {| pontuacoes := pont; pontos_ganhos_dia := ganhos_zerados pont |} in
  Permutation ranking_anterior (Dict.items pont) /\
  StronglySorted (fun a b => snd b <= snd a) ranking_anterior /\
  (forall j k,
     Dict.get mapa j = Some k <->
     1 <= k /\ exists x, nth_error ranking_anterior (Z.to_nat (k - 1)) = Some (j, x)) /\
  Permutation (partidas_do_dia df d) (filter (fun p => Data p =? d) df) /\
  Sorted (fun a b => ID_Partida a <= ID_Partida b) (partidas_do_dia df d) /\
  processa_dia df pont d = loop_partidas n mapa inicio (partidas_do_dia df d) /\
  (forall feitas p restantes st,
     partidas_do_dia df d = feitas ++ p :: restantes ->
     loop_partidas n mapa inicio feitas = Some st ->
     loop_partidas n mapa inicio (feitas ++ [p]) = processa_partida n mapa st p).
Proof.
  intros A n ranking_anterior mapa inicio.
  destruct (antes_do_dia_invariante A) as [Kp _].
  split; [apply ranking_perm|].
  split; [apply ranking_StronglySorted|].
  split.
  { intros j k. apply mapa_ranking_get, ranking_keys_NoDup.
    rewrite Kp; apply universo_NoDup. }
  split; [apply sorted_perm|].
  split; [apply partidas_do_dia_Sorted|].
  split; [reflexivity|].
  intros feitas p restantes st _ E.
  rewrite loop_partidas_app, E; simpl.
  now destruct (processa_partida n mapa st p).
Qed.

Lemma antes_do_dia_exemplo :
  antes_do_dia tabela_exemplo 1 (pontuacoes_iniciais tabela_exemplo).
Proof. exists [], [2]. eexists. repeat split. Qed.

Lemma mapa_pre_dia_witness :
  processa_dia tabela_exemplo (pontuacoes_iniciais tabela_exemplo) 1 =
  loop_partidas 4 mapa_exemplo estado_exemplo (partidas_do_dia tabela_exemplo 1).
Proof.
  apply (@mapa_pre_dia tabela_exemplo 1 (pontuacoes_iniciais tabela_exemplo)
           antes_do_dia_exemplo).
Defined.

(** On the first day of [tabela_exemplo], Ana beats Bia and then Bia
    beats Caio.  Before the day Bia is first; after the first match she is
    last.  Her win gets 25 points (no upset, loser third), as the pre-day map
    says, and not the 35 the scores of that moment would give. *)
Example mapa_nao_atualizado :
  exists st1 st2,
    loop_partidas 4 mapa_exemplo estado_exemplo [partida_exemplo] = Some st1 /\
    Dict.get (mapa_ranking (ranking (pontuacoes st1))) "Bia" = Some 3 /\
    processa_dia tabela_exemplo (pontuacoes_iniciais tabela_exemplo) 1 = Some st2 /\
    Dict.get (pontuacoes st1) "Bia" = Some 990 /\
    Dict.get (pontuacoes st2) "Bia" = Some (990 + 25).
Proof. do 2 eexists. repeat split. Qed.

(* ------------------------------------------------------------------ *)
(** * Ranks before a day *)

(** C10. In the rank map of every day each player of the table has a
    rank, the ranks are 1 to N without repetition, whatever scores are tied,
    and so two different players never have the same rank: one of the two is
    strictly worse, also for the two ranks the bonus rules compare in a match
    between different players. *)
Theorem ranks_distintos (df : DataFrame) (d : Z) (pont : dict string Z) :
  antes_do_dia df d pont ->
  let mapa := mapa_ranking (ranking pont) in
  let n := Z.of_nat (List.length (jogadores df)) in
  Permutation (Dict.keys mapa) (universo df) /\
  map snd mapa = map Z.of_nat (seq 1 (List.length (universo df))) /\
  (forall j, In j (universo df) ->
     exists k, Dict.get mapa j = Some k /\
               1 <= k <= Z.of_nat (List.length (universo df))) /\
  (forall j1 j2 k1 k2,
     j1 <> j2 -> Dict.get mapa j1 = Some k1 -> Dict.get mapa j2 = Some k2 ->
     k1 < k2 \/ k2 < k1) /\
  (forall p j1 j2,
     In p df -> Jogador_1 p = Some j1 -> Jogador_2 p = Some j2 -> j1 <> j2 ->
     Dict.get_or mapa j1 (n + 1) <> Dict.get_or mapa j2 (n + 1)).
Proof.
  intros A mapa n.
  destruct (antes_do_dia_invariante A) as [Kp _].
  assert (ND : NoDup (map fst (ranking pont))).
  { apply ranking_keys_NoDup. rewrite Kp; apply universo_NoDup. }
  assert (Len : List.length (ranking pont) = List.length (universo df)).
  { unfold ranking; rewrite sorted_length, <- Kp.
    unfold Dict.keys, Dict.items; now rewrite length_map. }
  assert (Km : Permutation (Dict.keys mapa) (universo df)).
  { unfold mapa; rewrite mapa_ranking_keys by assumption.
    rewrite <- Kp. apply ranking_keys. }
  assert (Vm : map snd mapa = map Z.of_nat (seq 1 (List.length (universo df)))).
  { unfold mapa; rewrite mapa_ranking_values by assumption. now rewrite Len. }
  assert (Hk : forall j, In j (universo df) ->
            exists k, Dict.get mapa j = Some k /\
                      1 <= k <= Z.of_nat (List.length (universo df))).
  { intros j Ij.
    apply (Permutation_in _ (Permutation_sym Km)) in Ij.
    destruct (DictFacts.in_keys_get _ _ Ij) as (k & Ek).
    exists k; split; [assumption|].
    apply DictFacts.get_In in Ek. apply (in_map snd) in Ek; simpl in Ek.
    rewrite Vm in Ek. apply in_map_iff in Ek as (m & <- & Im).
    apply in_seq in Im. lia. }
  assert (Hd : forall j1 j2 k1 k2,
            j1 <> j2 -> Dict.get mapa j1 = Some k1 -> Dict.get mapa j2 = Some k2 ->
            k1 <> k2).
  { intros j1 j2 k1 k2 N E1 E2 ->. apply N.
    eapply mapa_ranking_inj; [exact ND | exact E1 | exact E2]. }
  split; [assumption|]. split; [assumption|]. split; [assumption|]. split.
  - intros j1 j2 k1 k2 N E1 E2. pose proof (Hd _ _ _ _ N E1 E2). lia.
  - intros p j1 j2 Ip E1 E2 N.
    destruct (Hk j1) as (k1 & Ek1 & _); [apply universo_In; eauto|].
    destruct (Hk j2) as (k2 & Ek2 & _); [apply universo_In; eauto|].
    unfold Dict.get_or. rewrite Ek1, Ek2. eapply Hd; eauto.
Qed.

Lemma ranks_distintos_witness :
  Dict.get_or mapa_exemplo "Ana" (4 + 1) <> Dict.get_or mapa_exemplo "Bia" (4 + 1).
Proof.
  apply (proj2 (proj2 (proj2 (proj2
    (@ranks_distintos tabela_exemplo 1 (pontuacoes_iniciais tabela_exemplo)
       antes_do_dia_exemplo))))
    partida_exemplo "Ana" "Bia").
  - right; left; reflexivity.
  - reflexivity.
  - reflexivity.
  - discriminate.
Defined.

(** All three players of [tabela_exemplo] start the first day with 1000
    points, and their ranks are 1, 2 and 3 in the order of the dictionary. *)
Example ranks_com_empate :
  pontuacoes_iniciais tabela_exemplo = [("Bia", 1000); ("Ana", 1000); ("Caio", 1000)] /\
  mapa_exemplo = [("Bia", 1); ("Ana", 2); ("Caio", 3)].
Proof. split; reflexivity. Qed.

(** The one case with equal ranks is a row that names the same player
    twice: winner and loser are then one player, no upset bonus is added, and
    the player's entry of the day's record gets the gain and the loss. *)
Example partida_contra_si :
  exists st',
    processa_partida 4 mapa_exemplo estado_exemplo
      (linha 9 1 (Some "Ana") (Some "Ana") 11 3) = Some st' /\
    Dict.get (pontuacoes st') "Ana" = Some (1000 + (10 + 20) - 10) /\
    Dict.get (pontos_ganhos_dia st') "Ana" = Some (10 + 20 - 10).
Proof. eexists. repeat split. Qed.

(* ------------------------------------------------------------------ *)
(** * More on the engine *)

Lemma aplica_pontuacoes_geral (st : estado) (v l : string) (g : Z) (st' : estado)
    (x : string) :
  aplica st v l g = Some st' ->
  exists a,
    Dict.get (pontuacoes st) v = Some a /\
    Dict.get (pontuacoes st') x =
      if eq_dec l x
      then Some (Z.max 0 ((if eq_dec v l then a + g
                           else Dict.get_or (pontuacoes st) l 0) + PONTOS_DERROTA))
      else if eq_dec v x then Some (a + g)
      else Dict.get (pontuacoes st) x.
Proof.
  intros E; apply aplica_Some in E as (a & gv & gl & Ea & _ & _ & ->); simpl.
  exists a; split; [assumption|].
  rewrite !DictFacts.get_set. unfold Dict.get_or. rewrite DictFacts.get_set.
  destruct (eq_dec l x); [|reflexivity].
  destruct (eq_dec v l); reflexivity.
Qed.

Lemma calc_pontos_vencedor_le (rank_vencedor rank_perdedor : Z) :
  calc_pontos_vencedor rank_vencedor rank_perdedor <= 40.
Proof.
  rewrite calc_pontos_vencedor_eq. unfold bonus_upset, bonus_top.
  destruct (rank_perdedor <? rank_vencedor), (rank_perdedor =? 1),
    (rank_perdedor =? 2), (rank_perdedor =? 3); lia.
Qed.

(** X1. A match between two different players moves two scores only:
    the winner's goes up by at least 10 and at most 40, the loser's goes down
    by at most 10 and never below 0, and every other score stays. *)
Theorem partida_move_dois_placares (n : Z) (mapa : dict string Z)
    (st st' : estado) (p : partida) (j1 j2 : string) :
  Jogador_1 p = Some j1 -> Jogador_2 p = Some j2 -> j1 <> j2 ->
  nao_negativas (pontuacoes st) ->
  processa_partida n mapa st p = Some st' ->
  exists vencedor perdedor a a' b',
    ((vencedor = j1 /\ perdedor = j2) \/ (vencedor = j2 /\ perdedor = j1)) /\
    Dict.get (pontuacoes st) vencedor = Some a /\
    Dict.get (pontuacoes st') vencedor = Some a' /\
    a + 10 <= a' <= a + 40 /\
    Dict.get (pontuacoes st') perdedor = Some b' /\
    0 <= b' <= Dict.get_or (pontuacoes st) perdedor 0 /\
    Dict.get_or (pontuacoes st) perdedor 0 - 10 <= b' /\
    forall x, x <> j1 -> x <> j2 ->
      Dict.get (pontuacoes st') x = Dict.get (pontuacoes st) x /\
      Dict.get (pontos_ganhos_dia st') x = Dict.get (pontos_ganhos_dia st) x.
Proof.
  intros E1 E2 N F E.
  rewrite (processa_partida_presentes _ _ _ _ E1 E2) in E.
  set (vp := vencedor_perdedor j1 j2 (Resultado_J1 p) (Resultado_J2 p)) in *.
  assert (C : (fst vp = j1 /\ snd vp = j2) \/ (fst vp = j2 /\ snd vp = j1)).
  { unfold vp. destruct (vencedor_perdedor_cases j1 j2 (Resultado_J1 p) (Resultado_J2 p))
      as [-> | ->]; simpl; auto. }
  set (g := calc_pontos_vencedor _ _) in *.
  assert (Hg : 10 <= g <= 40)
    by (split; [apply calc_pontos_vencedor_ge | apply calc_pontos_vencedor_le]).
  assert (Nvl : fst vp <> snd vp) by (destruct C as [[? ?]|[? ?]]; congruence).
  edestruct aplica_pontuacoes as (a & Ea & Ev & El & Ho); [exact E | exact Nvl |].
  assert (Hb : 0 <= Dict.get_or (pontuacoes st) (snd vp) 0).
  { unfold Dict.get_or. destruct (Dict.get (pontuacoes st) (snd vp)) as [b|] eqn:Eb; [|lia].
    eapply nao_negativas_get; eauto. }
  exists (fst vp), (snd vp), a, (a + g),
    (Z.max 0 (Dict.get_or (pontuacoes st) (snd vp) 0 + PONTOS_DERROTA)).
  unfold PONTOS_DERROTA in *.
  repeat split; auto; try lia.
  - apply Ho; destruct C as [[? ?]|[? ?]]; congruence.
  - rewrite (@aplica_ganhos _ _ _ _ _ x E).
    destruct (eq_dec x (fst vp)) as [->|_]; [destruct C as [[? ?]|[? ?]]; congruence|].
    destruct (eq_dec x (snd vp)) as [->|_]; [destruct C as [[? ?]|[? ?]]; congruence|].
    destruct (Dict.get (pontos_ganhos_dia st) x); simpl; [f_equal; lia | reflexivity].
Qed.

Lemma partida_move_dois_placares_witness :
  exists st',
    processa_partida 4 mapa_exemplo estado_exemplo partida_exemplo = Some st' /\
    Dict.get (pontuacoes st') "Caio" = Some 1000.
Proof.
  eexists; split; [reflexivity|].
  assert (F : nao_negativas (pontuacoes estado_exemplo)).
  { repeat constructor; simpl; discriminate. }
  destruct (@partida_move_dois_placares 4 mapa_exemplo estado_exemplo _
              partida_exemplo "Ana" "Bia" eq_refl eq_refl
              ltac:(discriminate) F eq_refl)
    as (v & l & a & a' & b' & _).
  reflexivity.
Defined.

(** X2. Every player named anywhere in the table, and nobody else, is in
    the snapshot and in the record of every day, once: also on days before the
    player's first match and in rows whose other player is missing.  The
    record lists the players in the order of their first appearance. *)
Theorem todo_jogador_todo_dia (df : DataFrame)
    (r : dict Z (list (string * Z))) (s : dict Z stats_dia) (t : tabela) (d : Z) :
  calculate_rankings df = Some (r, s, t) -> In d (Dict.keys r) ->
  exists snapshot registro,
    Dict.get r d = Some snapshot /\
    Dict.get s d = Some registro /\
    Dict.keys (pontos_ganhos registro) = universo df /\
    NoDup (map fst snapshot) /\
    List.length snapshot = List.length (universo df) /\
    forall j,
      In j (map fst snapshot) <->
      exists p, In p df /\ (Jogador_1 p = Some j \/ Jogador_2 p = Some j).
Proof.
  intros E Id.
  destruct (calculate_rankings_saida _ E) as (Kr & _ & Hd).
  rewrite Kr in Id. destruct (Hd d Id) as (pont & st & A & Ed & Gr & Gs).
  pose proof (ponto_do_fold_invariante (ponto_do_fold_fim A Ed)) as I.
  exists (ranking (pontuacoes st)), {| pontos_ganhos := pontos_ganhos_dia st |}.
  split; [assumption|]. split; [assumption|]. simpl.
  split; [apply (inv_ganhos I)|].
  assert (P : Permutation (map fst (ranking (pontuacoes st))) (universo df)).
  { rewrite <- (inv_pontuacoes I). apply ranking_keys. }
  split; [|split].
  - eapply Permutation_NoDup; [symmetry; exact P | apply universo_NoDup].
  - rewrite <- (length_map fst). now apply Permutation_length.
  - intros j. rewrite <- universo_In. split; apply Permutation_in; [|symmetry]; exact P.
Qed.

Lemma todo_jogador_todo_dia_witness :
  exists r s t snapshot,
    calculate_rankings tabela_exemplo = Some (r, s, t) /\
    Dict.get r 1 = Some snapshot /\ List.length snapshot = 3%nat.
Proof.
  do 4 eexists. split; [vm_compute; reflexivity|]. split; [reflexivity|].
  destruct (@todo_jogador_todo_dia tabela_exemplo _ _ _ 1 eq_refl
              (or_introl eq_refl)) as (snap & reg & _).
  reflexivity.
Defined.

Lemma loop_partidas_alheio (n : Z) (mapa : dict string Z) (j : string)
    (ps : list partida) (st st' : estado) :
  (forall p, In p ps -> Jogador_1 p = Some j \/ Jogador_2 p = Some j ->
             Jogador_1 p = None \/ Jogador_2 p = None) ->
  loop_partidas n mapa st ps = Some st' ->
  Dict.get (pontuacoes st') j = Dict.get (pontuacoes st) j /\
  Dict.get (pontos_ganhos_dia st') j = Dict.get (pontos_ganhos_dia st) j.
Proof.
  revert st; induction ps as [|p ps IH]; intros st Hp E; simpl in E.
  - inversion E; auto.
  - apply bind_Some in E as (st1 & Es & E).
    destruct (IH st1) as [Hs Hg]; [intros q Iq; apply Hp; now right | assumption |].
    rewrite Hs, Hg. clear IH Hs Hg E.
    assert (Hp0 := Hp p (or_introl eq_refl)).
    destruct (Jogador_1 p) as [j1|] eqn:E1; [destruct (Jogador_2 p) as [j2|] eqn:E2|].
    + assert (N1 : j1 <> j) by (intros ->; destruct Hp0 as [?|?]; [auto| |]; discriminate).
      assert (N2 : j2 <> j) by (intros ->; destruct Hp0 as [?|?]; [auto| |]; discriminate).
      rewrite (processa_partida_presentes _ _ _ _ E1 E2) in Es.
      set (vp := vencedor_perdedor j1 j2 (Resultado_J1 p) (Resultado_J2 p)) in *.
      assert (C : fst vp <> j /\ snd vp <> j).
      { unfold vp. destruct (vencedor_perdedor_cases j1 j2 (Resultado_J1 p) (Resultado_J2 p))
          as [-> | ->]; simpl; auto. }
      destruct C as [Cv Cl].
      destruct (@aplica_pontuacoes_geral _ _ _ _ _ j Es) as (a & _ & Ej).
      destruct (eq_dec (snd vp) j); [congruence|].
      destruct (eq_dec (fst vp) j); [congruence|].
      split; [assumption|].
      rewrite (@aplica_ganhos _ _ _ _ _ j Es).
      destruct (eq_dec j (fst vp)); [congruence|].
      destruct (eq_dec j (snd vp)); [congruence|].
      destruct (Dict.get (pontos_ganhos_dia st) j); simpl; [f_equal; lia | reflexivity].
    + rewrite processa_partida_ausente in Es by auto. inversion Es; auto.
    + rewrite processa_partida_ausente in Es by auto. inversion Es; auto.
Qed.

Lemma ganhos_zerados_get (pont : dict string Z) (j : string) :
  NoDup (Dict.keys pont) -> In j (Dict.keys pont) ->
  Dict.get (ganhos_zerados pont) j = Some 0.
Proof.
  intros ND I. apply DictFacts.NoDup_get.
  - rewrite ganhos_zerados_eq, keys_map_const; assumption.
  - rewrite ganhos_zerados_eq by assumption. apply in_map_iff; eauto.
Qed.

(** X3. A player who is in no complete row of a day ends the day with
    the score the player had before it and with 0 in the day's record. *)
Theorem quem_nao_joga_fica_igual (df : DataFrame) (d : Z) (pont : dict string Z)
    (st : estado) (j : string) :
  antes_do_dia df d pont -> processa_dia df pont d = Some st ->
  In j (universo df) ->
  (forall p, In p df -> Data p = d ->
             Jogador_1 p = Some j \/ Jogador_2 p = Some j ->
             Jogador_1 p = None \/ Jogador_2 p = None) ->
  Dict.get (pontuacoes st) j = Dict.get pont j /\
  Dict.get (pontos_ganhos_dia st) j = Some 0.
Proof.
  intros A E Ij Hp. unfold processa_dia in E.
  destruct (antes_do_dia_invariante A) as [Kp _].
  edestruct loop_partidas_alheio as [Hs Hg]; [|exact E|].
  - intros p Ip. apply partidas_do_dia_In in Ip as [Ip Dp]. now apply Hp.
  - simpl in Hs, Hg. split; [assumption|]. rewrite Hg.
    apply ganhos_zerados_get; rewrite Kp; [apply universo_NoDup | assumption].
Qed.

Lemma quem_nao_joga_fica_igual_witness :
  exists st,
    processa_dia tabela_exemplo [("Bia", 1015); ("Ana", 1040); ("Caio", 990)] 2
      = Some st /\
    Dict.get (pontuacoes st) "Bia" = Some 1015 /\
    Dict.get (pontos_ganhos_dia st) "Bia" = Some 0.
Proof.
  eexists; split; [reflexivity|].
  assert (A : antes_do_dia tabela_exemplo 2
                [("Bia", 1015); ("Ana", 1040); ("Caio", 990)]).
  { exists [1], []. eexists.
    split; [reflexivity|]. split; [vm_compute; reflexivity | reflexivity]. }
  apply (@quem_nao_joga_fica_igual tabela_exemplo 2 _ _ "Bia" A eq_refl).
  - left; reflexivity.
  - intros p [<-|[<-|[<-|[<-|[]]]]]; simpl; intros D H;
      try discriminate; auto; destruct H; discriminate.
Defined.

(** The balance of one player over the rest of a day: [a0] is the score
    before the day, [total] the number of rows of the day and [k] the number
    of rows still to come. *)
Lemma processa_partida_saldo (n : Z) (mapa : dict string Z) (j : string)
    (a0 total : Z) (k : nat) (st st' : estado) (p : partida) :
  processa_partida n mapa st p = Some st' ->
  (exists a g,
     Dict.get (pontuacoes st) j = Some a /\
     Dict.get (pontos_ganhos_dia st) j = Some g /\
     a0 + g <= a /\
     (10 * total <= a0 -> a = a0 + g /\ 10 * Z.of_nat (S k) <= a)) ->
  exists a g,
    Dict.get (pontuacoes st') j = Some a /\
    Dict.get (pontos_ganhos_dia st') j = Some g /\
    a0 + g <= a /\
    (10 * total <= a0 -> a = a0 + g /\ 10 * Z.of_nat k <= a).
Proof.
  intros E (a & g & Ea & Eg & Hle & Heq).
  destruct (Jogador_1 p) as [j1|] eqn:E1; [destruct (Jogador_2 p) as [j2|] eqn:E2|].
  - rewrite (processa_partida_presentes _ _ _ _ E1 E2) in E.
    set (vp := vencedor_perdedor j1 j2 (Resultado_J1 p) (Resultado_J2 p)) in *.
    set (G := calc_pontos_vencedor _ _) in *.
    assert (HG : 10 <= G) by apply calc_pontos_vencedor_ge.
    destruct (@aplica_pontuacoes_geral _ _ _ _ _ j E) as (av & Eav & Ej).
    pose proof (@aplica_ganhos _ _ _ _ _ j E) as Egj. rewrite Eg in Egj; simpl in Egj.
    unfold PONTOS_DERROTA in *.
    destruct (eq_dec (snd vp) j) as [El|Nl].
    + destruct (eq_dec j (snd vp)) as [_|]; [|congruence].
      destruct (eq_dec (fst vp) (snd vp)) as [Evl|Nvl].
      * destruct (eq_dec j (fst vp)) as [_|]; [|congruence].
        assert (av = a) by congruence. subst av.
        eexists _, _; split; [exact Ej|]. split; [exact Egj|]. lia.
      * destruct (eq_dec j (fst vp)) as [|_]; [congruence|].
        unfold Dict.get_or in Ej. rewrite El, Ea in Ej.
        eexists _, _; split; [exact Ej|]. split; [exact Egj|]. lia.
    + destruct (eq_dec j (snd vp)) as [|_]; [congruence|].
      destruct (eq_dec (fst vp) j) as [Ev|Nv].
      * destruct (eq_dec j (fst vp)) as [_|]; [|congruence].
        assert (av = a) by congruence. subst av.
        eexists _, _; split; [exact Ej|]. split; [exact Egj|]. lia.
      * destruct (eq_dec j (fst vp)) as [|_]; [congruence|].
        rewrite Ea in Ej.
        eexists _, _; split; [exact Ej|]. split; [exact Egj|]. lia.
  - rewrite processa_partida_ausente in E by auto. inversion E; subst.
    exists a, g; repeat split; auto; lia.
  - rewrite processa_partida_ausente in E by auto. inversion E; subst.
    exists a, g; repeat split; auto; lia.
Qed.

Lemma loop_partidas_saldo (n : Z) (mapa : dict string Z) (j : string)
    (a0 total : Z) (ps : list partida) (st st' : estado) :
  loop_partidas n mapa st ps = Some st' ->
  (exists a g,
     Dict.get (pontuacoes st) j = Some a /\
     Dict.get (pontos_ganhos_dia st) j = Some g /\
     a0 + g <= a /\
     (10 * total <= a0 -> a = a0 + g /\ 10 * Z.of_nat (List.length ps) <= a)) ->
  exists a g,
    Dict.get (pontuacoes st') j = Some a /\
    Dict.get (pontos_ganhos_dia st') j = Some g /\
    a0 + g <= a /\
    (10 * total <= a0 -> a = a0 + g).
Proof.
  revert st; induction ps as [|p ps IH]; intros st E H; simpl in E.
  - inversion E; subst. destruct H as (a & g & Ea & Eg & Hle & Heq).
    exists a, g; repeat split; auto. intros T; now apply Heq.
  - apply bind_Some in E as (st1 & E1 & E).
    apply (IH st1 E). eapply processa_partida_saldo; [exact E1 | exact H].
Qed.

(** X4. Over a day a player's score changes by at least what the day's
    record says for the player; it changes by exactly that when the score
    before the day is at least 10 times the number of rows of the day, since
    the floor at 0 is then out of reach. *)
Theorem placar_e_registro (df : DataFrame) (d : Z) (pont : dict string Z)
    (st : estado) (j : string) (a0 : Z) :
  antes_do_dia df d pont -> processa_dia df pont d = Some st ->
  Dict.get pont j = Some a0 ->
  exists a g,
    Dict.get (pontuacoes st) j = Some a /\
    Dict.get (pontos_ganhos_dia st) j = Some g /\
    a0 + g <= a /\
    (10 * Z.of_nat (List.length (partidas_do_dia df d)) <= a0 -> a = a0 + g).
Proof.
  intros A E Ea0. unfold processa_dia in E.
  destruct (antes_do_dia_invariante A) as [Kp _].
  eapply loop_partidas_saldo; [exact E|]. simpl.
  exists a0, 0; split; [assumption|]. split.
  - apply ganhos_zerados_get; [rewrite Kp; apply universo_NoDup|].
    eapply DictFacts.get_keys; eassumption.
  - split; [lia|]. intros T; split; lia.
Qed.

Lemma placar_e_registro_witness :
  exists st a g,
    processa_dia tabela_exemplo (pontuacoes_iniciais tabela_exemplo) 1 = Some st /\
    Dict.get (pontuacoes st) "Bia" = Some a /\
    Dict.get (pontos_ganhos_dia st) "Bia" = Some g /\
    1000 + g <= a.
Proof.
  eexists.
  destruct (@placar_e_registro tabela_exemplo 1 (pontuacoes_iniciais tabela_exemplo)
              _ "Bia" 1000 antes_do_dia_exemplo eq_refl eq_refl)
    as (a & g & Ea & Eg & Hle & _).
  exists a, g. repeat split; assumption.
Defined.

Lemma StronglySorted_le_lt (l : list Z) :
  StronglySorted Z.le l -> NoDup l -> StronglySorted Z.lt l.
Proof.
  induction 1 as [|x l S IH F]; intros ND; [constructor|].
  inversion ND as [|? ? NI ND']; subst.
  constructor; [auto|].
  rewrite Forall_forall in *. intros y Iy.
  assert (x <> y) by (intros ->; contradiction).
  specialize (F y Iy). lia.
Qed.

Lemma datas_unicas_ascendente (df : DataFrame) :
  StronglySorted Z.lt (datas_unicas df).
Proof.
  apply StronglySorted_le_lt; [|apply datas_unicas_NoDup].
  apply Sorted_StronglySorted; [intros a b c; lia|].
  unfold datas_unicas.
  eapply Sorted_ind with (P := Sorted Z.le).
  3: { apply sorted_Sorted. intros a b E. apply Z.leb_gt in E. apply Z.leb_le. lia. }
  - constructor.
  - intros a l _ S Hd. constructor; [assumption|].
    destruct Hd as [|b l Hb]; constructor. now apply Z.leb_le.
Qed.

(** X5. Both collections list their dates in strictly ascending order,
    whatever the order of the rows of the table. *)
Theorem datas_em_ordem (df : DataFrame)
    (r : dict Z (list (string * Z))) (s : dict Z stats_dia) (t : tabela) :
  calculate_rankings df = Some (r, s, t) ->
  StronglySorted Z.lt (Dict.keys r) /\ StronglySorted Z.lt (Dict.keys s).
Proof.
  intros E. destruct (calculate_rankings_saida _ E) as (Kr & Ks & _).
  rewrite Kr, Ks. split; apply datas_unicas_ascendente.
Qed.

Lemma datas_em_ordem_witness :
  exists r s t,
    calculate_rankings (rev tabela_exemplo) = Some (r, s, t) /\
    StronglySorted Z.lt (Dict.keys r).
Proof.
  do 3 eexists. split; [vm_compute; reflexivity|].
  eapply proj1, (@datas_em_ordem (rev tabela_exemplo)). vm_compute; reflexivity.
Defined.

(** ** Ties *)

Section SortedStable.
Context {A : Type} (before : A -> A -> bool) (f : A -> bool).
Hypothesis before_f : forall x y, before x y = false -> f x = true -> f y = false.

Lemma insert_filter (x : A) (l : list A) :
  filter f (insert before x l) = filter f (x :: l).
Proof.
  induction l as [|y l IH]; [reflexivity|]. simpl.
  destruct (before x y) eqn:B; [reflexivity|]. simpl. rewrite IH. simpl.
  destruct (f x) eqn:Fx; [|reflexivity].
  now rewrite (before_f B Fx).
Qed.

Lemma sorted_filter (l : list A) : filter f (sorted before l) = filter f l.
Proof.
  induction l as [|x l IH]; [reflexivity|]. simpl.
  rewrite insert_filter. simpl. now rewrite IH.
Qed.
End SortedStable.

Lemma get_Permutation (l l' : dict string Z) (j : string) :
  NoDup (Dict.keys l) -> Permutation l l' -> Dict.get l' j = Dict.get l j.
Proof.
  intros ND P.
  assert (ND' : NoDup (Dict.keys l')).
  { eapply Permutation_NoDup; [apply Permutation_map; exact P | exact ND]. }
  destruct (Dict.get l j) as [x|] eqn:E.
  - apply DictFacts.NoDup_get; [assumption|].
    apply (Permutation_in _ P). now apply DictFacts.get_In.
  - apply DictFacts.get_None. apply DictFacts.get_None in E.
    intros I; apply E.
    apply (Permutation_in _ (Permutation_sym (Permutation_map fst P)) I).
Qed.

Lemma filter_por_pontos (pont : dict string Z) (x : Z) :
  NoDup (Dict.keys pont) ->
  map fst (filter (fun kv => snd kv =? x) pont) =
  filter (fun j => match Dict.get pont j with
                   | Some y => y =? x
                   | None => false
                   end) (Dict.keys pont).
Proof.
  induction pont as [|[k v] pont IH]; intros ND; [reflexivity|].
  inversion ND as [|? ? NI ND']; subst. simpl.
  destruct (eq_dec k k) as [_|]; [|congruence].
  assert (Ext : filter (fun j => match (if eq_dec k j then Some v else Dict.get pont j) with
                                 | Some y => y =? x | None => false end) (Dict.keys pont)
              = filter (fun j => match Dict.get pont j with
                                 | Some y => y =? x | None => false end) (Dict.keys pont)).
  { apply filter_ext_in. intros j Ij.
    destruct (eq_dec k j) as [->|_]; [contradiction | reflexivity]. }
  rewrite Ext. destruct (v =? x); simpl; now rewrite IH.
Qed.

(** X6. Among the players of a snapshot with the same points, the one
    whose name comes first in the table (the first column read before the
    second) comes first: listing the players of any given score in snapshot
    order gives them in the order of their first appearance. *)
Theorem empate_na_ordem_da_tabela (df : DataFrame)
    (r : dict Z (list (string * Z))) (s : dict Z stats_dia) (t : tabela)
    (d : Z) (snapshot : list (string * Z)) (x : Z) :
  calculate_rankings df = Some (r, s, t) ->
  Dict.get r d = Some snapshot ->
  map fst (filter (fun kv => snd kv =? x) snapshot) =
  filter (fun j => match Dict.get snapshot j with
                   | Some y => y =? x
                   | None => false
                   end) (universo df).
Proof.
  intros E G.
  destruct (calculate_rankings_saida _ E) as (Kr & _ & Hd).
  assert (Id : In d (datas_unicas df)).
  { rewrite <- Kr. eapply DictFacts.get_keys; eassumption. }
  destruct (Hd d Id) as (pont & st & A & Ed & Gr & _).
  rewrite Gr in G; inversion G; subst; clear G.
  pose proof (ponto_do_fold_invariante (ponto_do_fold_fim A Ed)) as I.
  assert (ND : NoDup (Dict.keys (pontuacoes st))).
  { rewrite (inv_pontuacoes I). apply universo_NoDup. }
  unfold ranking at 1, Dict.items. rewrite sorted_filter.
  - rewrite filter_por_pontos by assumption. rewrite (inv_pontuacoes I).
    apply filter_ext. intros j.
    rewrite (@get_Permutation (pontuacoes st) (ranking (pontuacoes st)) j ND);
      [reflexivity|].
    symmetry; apply ranking_perm.
  - intros a b B Fa. apply Z.leb_gt in B. apply Z.eqb_eq in Fa. apply Z.eqb_neq. lia.
Qed.

Lemma empate_na_ordem_da_tabela_witness :
  exists r s t snapshot,
    calculate_rankings tabela_derrotas = Some (r, s, t) /\
    Dict.get r 1 = Some snapshot /\
    map fst (filter (fun kv => snd kv =? 0) snapshot) = ["Bia"].
Proof.
  do 4 eexists. split; [vm_compute; reflexivity|]. split; [reflexivity|].
  erewrite (@empate_na_ordem_da_tabela tabela_derrotas _ _ _ 1 _ 0);
    [reflexivity | vm_compute; reflexivity | reflexivity].
Defined.

(** ** Fewer points, worse rank *)

Lemma StronglySorted_nth {A : Type} (R : A -> A -> Prop) (l : list A)
    (i k : nat) (x y : A) :
  StronglySorted R l -> (i < k)%nat ->
  nth_error l i = Some x -> nth_error l k = Some y -> R x y.
Proof.
  intros S; revert i k; induction S as [|a l S IH F]; intros i k L Ei Ek.
  - destruct i; discriminate.
  - destruct k as [|k]; [lia|]. simpl in Ek.
    destruct i as [|i]; simpl in Ei.
    + inversion Ei; subst. rewrite Forall_forall in F.
      apply F. eapply nth_error_In; eassumption.
    + apply (IH i k); auto; lia.
Qed.

Lemma pior_rank (pont : dict string Z) (j1 j2 : string) (a1 a2 : Z) :
  NoDup (Dict.keys pont) ->
  Dict.get pont j1 = Some a1 -> Dict.get pont j2 = Some a2 -> a1 < a2 ->
  exists k1 k2,
    Dict.get (mapa_ranking (ranking pont)) j1 = Some k1 /\
    Dict.get (mapa_ranking (ranking pont)) j2 = Some k2 /\
    k2 < k1.
Proof.
  intros NDp E1 E2 L. set (mapa := mapa_ranking (ranking pont)).
  assert (ND : NoDup (map fst (ranking pont))) by now apply ranking_keys_NoDup.
  assert (Hk : forall j a, Dict.get pont j = Some a ->
            exists k, Dict.get mapa j = Some k /\ 1 <= k /\
                      nth_error (ranking pont) (Z.to_nat (k - 1)) = Some (j, a)).
  { intros j a Ej.
    assert (Ij : In j (Dict.keys mapa)).
    { unfold mapa; rewrite mapa_ranking_keys by assumption.
      apply (Permutation_in _ (Permutation_sym (ranking_keys pont))).
      eapply DictFacts.get_keys; eassumption. }
    destruct (DictFacts.in_keys_get _ _ Ij) as (k & Ek).
    exists k; split; [assumption|].
    apply mapa_ranking_get in Ek as (Hk1 & x & En); [|assumption].
    split; [assumption|].
    assert (x = a); [|congruence].
    apply nth_error_In in En. apply (Permutation_in _ (ranking_perm pont)) in En.
    apply (DictFacts.NoDup_get _ _ _ NDp) in En. congruence. }
  destruct (Hk _ _ E1) as (k1 & Ek1 & H1 & N1).
  destruct (Hk _ _ E2) as (k2 & Ek2 & H2 & N2).
  exists k1, k2. split; [assumption|]. split; [assumption|].
  destruct (Z.lt_trichotomy k1 k2) as [Lt|[Eq|Gt]]; [| |assumption].
  - assert (Ln : (Z.to_nat (k1 - 1) < Z.to_nat (k2 - 1))%nat) by lia.
    pose proof (@StronglySorted_nth _ _ _ _ _ _ _ (ranking_StronglySorted pont)
                  Ln N1 N2) as R. simpl in R. lia.
  - subst k2. rewrite N1 in N2. inversion N2. lia.
Qed.

Lemma upset_ge_15 (k1 k2 : Z) : k2 < k1 -> 15 <= calc_pontos_vencedor k1 k2.
Proof.
  intros Lk. rewrite calc_pontos_vencedor_eq. unfold bonus_upset, bonus_top.
  apply Z.ltb_lt in Lk. rewrite Lk.
  destruct (k2 =? 1), (k2 =? 2), (k2 =? 3); lia.
Qed.

(** X7. If, before a day, one player has strictly fewer points than
    another, the first has the strictly worse rank in the day's map; so a win
    of the first over the second that day carries the upset bonus: at least 15
    points. *)
Theorem menos_pontos_pior_rank (df : DataFrame) (d : Z) (pont : dict string Z)
    (j1 j2 : string) (a1 a2 n : Z) :
  antes_do_dia df d pont ->
  Dict.get pont j1 = Some a1 -> Dict.get pont j2 = Some a2 -> a1 < a2 ->
  let mapa := mapa_ranking (ranking pont) in
  Dict.get_or mapa j2 n < Dict.get_or mapa j1 n /\
  15 <= calc_pontos_vencedor (Dict.get_or mapa j1 n) (Dict.get_or mapa j2 n).
Proof.
  intros A E1 E2 L mapa.
  destruct (antes_do_dia_invariante A) as [Kp _].
  assert (NDp : NoDup (Dict.keys pont)) by (rewrite Kp; apply universo_NoDup).
  destruct (@pior_rank pont j1 j2 a1 a2 NDp E1 E2 L) as (k1 & k2 & Ek1 & Ek2 & Lk).
  unfold Dict.get_or, mapa. rewrite Ek1, Ek2.
  split; [assumption | now apply upset_ge_15].
Qed.

Lemma menos_pontos_pior_rank_witness :
  Dict.get_or (mapa_ranking (ranking [("Bia", 1015); ("Ana", 1040); ("Caio", 990)]))
              "Ana" 5
  < Dict.get_or (mapa_ranking (ranking [("Bia", 1015); ("Ana", 1040); ("Caio", 990)]))
                "Caio" 5.
Proof.
  assert (A : antes_do_dia tabela_exemplo 2
                [("Bia", 1015); ("Ana", 1040); ("Caio", 990)]).
  { exists [1], []. eexists.
    split; [reflexivity|]. split; [vm_compute; reflexivity | reflexivity]. }
  apply (@menos_pontos_pior_rank tabela_exemplo 2 _ "Caio" "Ana" 990 1040 5 A
           eq_refl eq_refl).
  lia.
Defined.

(* ------------------------------------------------------------------ *)
(** * The day's record as a whole *)

Lemma soma_por_set {K V : Type} `{EqDec K} (f : V -> Z) (d : dict K V) (k : K) (v : V) :
  soma_por f (Dict.set d k v) =
  soma_por f d + f v - match Dict.get d k with
                       | Some old => f old
                       | None => 0
                       end.
Proof.
  induction d as [|[k' v'] d IH]; simpl; [lia|].
  destruct (eq_dec k' k); simpl; [lia|]. rewrite IH. lia.
Qed.

Lemma conta_cons {A : Type} (f : A -> bool) (x : A) (l : list A) :
  conta f (x :: l) = (if f x then 1 else 0) + conta f l.
Proof.
  unfold conta; cbn [filter]. destruct (f x); cbn [List.length]; lia.
Qed.

Lemma conta_Permutation {A : Type} (f : A -> bool) (l l' : list A) :
  Permutation l l' -> conta f l = conta f l'.
Proof.
  induction 1 as [|x l l' P IH|x y l|l l' l'' P IH P' IH'].
  - reflexivity.
  - rewrite !conta_cons. lia.
  - rewrite !conta_cons. lia.
  - congruence.
Qed.

Lemma conta_bounds {A : Type} (f : A -> bool) (l : list A) : 0 <= conta f l.
Proof. unfold conta; lia. Qed.

Lemma aplica_soma (st : estado) (v l : string) (g : Z) (st' : estado) :
  aplica st v l g = Some st' ->
  soma_por (fun x => x) (pontos_ganhos_dia st') =
  soma_por (fun x => x) (pontos_ganhos_dia st) + g - 10.
Proof.
  intros E; apply aplica_Some in E as (a & gv & gl & _ & Egv & Egl & ->); simpl.
  rewrite !soma_por_set, Egv, Egl. unfold PONTOS_DERROTA. lia.
Qed.

Lemma loop_partidas_soma (n : Z) (mapa : dict string Z) (ps : list partida)
    (st st' : estado) :
  loop_partidas n mapa st ps = Some st' ->
  let antes := soma_por (fun x => x) (pontos_ganhos_dia st) in
  let depois := soma_por (fun x => x) (pontos_ganhos_dia st') in
  antes <= depois <= antes + 30 * conta completa ps.
Proof.
  revert st; induction ps as [|p ps IH]; intros st E; simpl in E.
  - inversion E; subst. cbv zeta. unfold conta; simpl. lia.
  - apply bind_Some in E as (st1 & E1 & E). specialize (IH _ E). cbv zeta in IH.
    cbv zeta. rewrite conta_cons. unfold completa at 1.
    destruct (Jogador_1 p) as [j1|] eqn:J1; [destruct (Jogador_2 p) as [j2|] eqn:J2|].
    + rewrite (processa_partida_presentes _ _ _ _ J1 J2) in E1.
      set (G := calc_pontos_vencedor _ _) in *.
      pose proof (@aplica_soma _ _ _ _ _ E1) as S.
      assert (10 <= G <= 40)
        by (split; [apply calc_pontos_vencedor_ge | apply calc_pontos_vencedor_le]).
      lia.
    + rewrite processa_partida_ausente in E1 by auto. inversion E1; subst. lia.
    + rewrite processa_partida_ausente in E1 by auto. inversion E1; subst. lia.
Qed.

Lemma soma_ganhos_zerados (pont : dict string Z) :
  NoDup (Dict.keys pont) -> soma_por (fun x => x) (ganhos_zerados pont) = 0.
Proof.
  intros ND. rewrite ganhos_zerados_eq by assumption. clear ND.
  unfold soma_por. induction (Dict.keys pont) as [|j l IH]; simpl; auto.
Qed.

(** X8. The points of a day's record add up to at least 0 and to at
    most 30 times the number of the day's rows with both players present: each
    such row takes 10 from the loser's entry and gives 10 to 40 to the
    winner's. *)
Theorem soma_do_registro (df : DataFrame)
    (r : dict Z (list (string * Z))) (s : dict Z stats_dia) (t : tabela)
    (d : Z) (registro : stats_dia) :
  calculate_rankings df = Some (r, s, t) ->
  Dict.get s d = Some registro ->
  0 <= soma_por (fun x => x) (pontos_ganhos registro)
    <= 30 * conta completa (filter (fun p => Data p =? d) df).
Proof.
  intros E G.
  destruct (calculate_rankings_saida _ E) as (_ & Ks & Hd).
  assert (Id : In d (datas_unicas df)).
  { rewrite <- Ks. eapply DictFacts.get_keys; eassumption. }
  destruct (Hd d Id) as (pont & st & A & Ed & _ & Gs).
  rewrite Gs in G; inversion G; subst; clear G. simpl.
  destruct (antes_do_dia_invariante A) as [Kp _].
  unfold processa_dia in Ed. apply loop_partidas_soma in Ed. simpl in Ed.
  rewrite soma_ganhos_zerados in Ed by (rewrite Kp; apply universo_NoDup).
  assert (C : conta completa (partidas_do_dia df d) =
              conta completa (filter (fun p => Data p =? d) df)).
  { apply conta_Permutation. apply sorted_perm. }
  rewrite C in Ed. lia.
Qed.

Lemma soma_do_registro_witness :
  exists r s t registro,
    calculate_rankings tabela_exemplo = Some (r, s, t) /\
    Dict.get s 1 = Some registro /\
    0 <= soma_por (fun x => x) (pontos_ganhos registro)
      <= 30 * conta completa (filter (fun p => Data p =? 1) tabela_exemplo).
Proof.
  do 4 eexists. split; [vm_compute; reflexivity|]. split; [reflexivity|].
  eapply (@soma_do_registro tabela_exemplo); [vm_compute; reflexivity | reflexivity].
Defined.

(* ------------------------------------------------------------------ *)
(** * The daily page *)

Lemma fold_max_spec {A : Type} (key : A -> Z) (rest pre mid : list A) (best : A) :
  (forall y, In y pre -> key y < key best) ->
  (forall y, In y mid -> key y <= key best) ->
  exists l1 l2,
    pre ++ best :: mid ++ rest =
      l1 ++ fold_left (fun b y => if key b <? key y then y else b) rest best :: l2 /\
    (forall y, In y l1 ->
       key y < key (fold_left (fun b y => if key b <? key y then y else b) rest best)) /\
    (forall y, In y l2 ->
       key y <= key (fold_left (fun b y => if key b <? key y then y else b) rest best)).
Proof.
  revert pre mid best; induction rest as [|y rest IH]; intros pre mid best Hpre Hmid.
  - exists pre, mid. rewrite app_nil_r. auto.
  - simpl. destruct (key best <? key y) eqn:L.
    + apply Z.ltb_lt in L.
      destruct (IH (pre ++ best :: mid) [] y) as (l1 & l2 & E & H1 & H2).
      * intros z Iz. apply in_app_or in Iz as [Iz|[<-|Iz]];
          [specialize (Hpre _ Iz) | | specialize (Hmid _ Iz)]; lia.
      * intros z [].
      * exists l1, l2. split; [|auto].
        rewrite <- E. simpl. now rewrite <- app_assoc.
    + apply Z.ltb_ge in L.
      destruct (IH pre (mid ++ [y]) best) as (l1 & l2 & E & H1 & H2); auto.
      * intros z Iz. apply in_app_or in Iz as [Iz|[<-|[]]]; auto.
      * exists l1, l2. split; [|auto].
        rewrite <- E. now rewrite <- app_assoc.
Qed.

Lemma max_by_Some {A : Type} (key : A -> Z) (l : list A) (m : A) :
  max_by key l = Some m ->
  exists l1 l2,
    l = l1 ++ m :: l2 /\
    (forall y, In y l1 -> key y < key m) /\
    (forall y, In y l2 -> key y <= key m).
Proof.
  destruct l as [|x l]; simpl; [discriminate|]. intros E; inversion E; subst.
  destruct (@fold_max_spec _ key l [] [] x) as (l1 & l2 & El & H1 & H2);
    try (intros y []).
  exists l1, l2. auto.
Qed.

Lemma max_by_None {A : Type} (key : A -> Z) (l : list A) :
  max_by key l = None <-> l = [].
Proof. destruct l; simpl; split; congruence. Qed.

Lemma soma_por_lt (d : dict string Z) (m : Z) :
  d <> [] -> (forall j x, In (j, x) d -> x <= m) -> m < 0 ->
  soma_por (fun x => x) d < 0.
Proof.
  intros N H L. destruct d as [|[j x] d]; [congruence|]. clear N.
  assert (S : forall d' : dict string Z,
            (forall j x, In (j, x) d' -> x <= m) -> soma_por (fun x => x) d' <= 0).
  { induction d' as [|[j' x'] d' IH]; intros H'; simpl; [lia|].
    specialize (H' j' x' (or_introl eq_refl)) as Hx.
    assert (soma_por (fun x => x) d' <= 0) by (apply IH; intros; eapply H'; right; eauto).
    unfold soma_por in *. lia. }
  simpl. specialize (S d (fun j' x' I => H j' x' (or_intror I))).
  specialize (H j x (or_introl eq_refl)). unfold soma_por in *. lia.
Qed.

(** X9. The page names as player of the day a player whose entry in the
    day's record is the largest, the earliest such player in the order of
    first appearance; the points shown are at least 0.  When the table names
    no player at all, the record is empty and [max] raises. *)
Theorem jogador_do_dia_maximo (df : DataFrame)
    (r : dict Z (list (string * Z))) (s : dict Z stats_dia) (t : tabela)
    (d : Z) (registro : stats_dia) :
  calculate_rankings df = Some (r, s, t) ->
  Dict.get s d = Some registro ->
  (universo df = [] -> jogador_do_dia (pontos_ganhos registro) = None) /\
  (universo df <> [] ->
   exists j pontos l1 l2,
     jogador_do_dia (pontos_ganhos registro) = Some (j, pontos) /\
     Dict.get (pontos_ganhos registro) j = Some pontos /\
     0 <= pontos /\
     universo df = l1 ++ j :: l2 /\
     (forall j' x, In j' l1 -> Dict.get (pontos_ganhos registro) j' = Some x ->
                   x < pontos) /\
     (forall j' x, Dict.get (pontos_ganhos registro) j' = Some x -> x <= pontos)).
Proof.
  intros E G.
  destruct (calculate_rankings_saida _ E) as (_ & Ks & Hd).
  assert (Id : In d (datas_unicas df)).
  { rewrite <- Ks. eapply DictFacts.get_keys; eassumption. }
  destruct (Hd d Id) as (pont & st & A & Ed & _ & Gs).
  rewrite Gs in G; inversion G; subst; clear G. simpl in *.
  pose proof (ponto_do_fold_invariante (ponto_do_fold_fim A Ed)) as I.
  assert (S0 : 0 <= soma_por (fun x => x) (pontos_ganhos_dia st)).
  { destruct (antes_do_dia_invariante A) as [Kp _].
    pose proof Ed as Es. unfold processa_dia in Es.
    apply loop_partidas_soma in Es. simpl in Es.
    rewrite soma_ganhos_zerados in Es by (rewrite Kp; apply universo_NoDup). lia. }
  pose proof (inv_ganhos I) as Kg.
  set (reg := pontos_ganhos_dia st) in *.
  assert (ND : NoDup (Dict.keys reg)) by (rewrite Kg; apply universo_NoDup).
  unfold jogador_do_dia. split.
  - intros U. rewrite Kg, U. reflexivity.
  - intros U.
    destruct (max_by (fun j => Dict.get_or reg j 0) (Dict.keys reg)) as [j|] eqn:M.
    2: { apply max_by_None in M. congruence. }
    destruct (max_by_Some _ _ M) as (l1 & l2 & El & H1 & H2).
    assert (Ij : In j (Dict.keys reg)) by (rewrite El; apply in_or_app; right; now left).
    destruct (DictFacts.in_keys_get _ _ Ij) as (pontos & Ej).
    assert (Hmax : forall j' x, Dict.get reg j' = Some x -> x <= pontos).
    { intros j' x Ex.
      assert (Ij' : In j' (Dict.keys reg)) by (eapply DictFacts.get_keys; eassumption).
      rewrite El in Ij'. apply in_app_or in Ij' as [Ij'|[<-|Ij']].
      - specialize (H1 _ Ij'). unfold Dict.get_or in H1. rewrite Ex, Ej in H1. lia.
      - rewrite Ej in Ex. inversion Ex. lia.
      - specialize (H2 _ Ij'). unfold Dict.get_or in H2. rewrite Ex, Ej in H2. lia. }
    exists j, pontos, l1, l2. simpl. rewrite Ej. simpl.
    split; [reflexivity|]. split; [reflexivity|]. split; [|split; [|split]].
    + destruct (Z_lt_le_dec pontos 0) as [L|]; [|assumption].
      exfalso. assert (soma_por (fun x => x) reg < 0); [|lia].
      apply (@soma_por_lt reg pontos); auto.
      * intros Er. rewrite Er in Ij. destruct Ij.
      * intros j' x Ix. apply (Hmax j'). now apply DictFacts.NoDup_get.
    + now rewrite <- Kg.
    + intros j' x Ij' Ex. specialize (H1 _ Ij').
      unfold Dict.get_or in H1. rewrite Ex, Ej in H1. assumption.
    + assumption.
Qed.

Lemma jogador_do_dia_maximo_witness :
  exists r s t registro,
    calculate_rankings tabela_exemplo = Some (r, s, t) /\
    Dict.get s 1 = Some registro /\
    jogador_do_dia (pontos_ganhos registro) = Some ("Ana", 40).
Proof.
  do 4 eexists. split; [vm_compute; reflexivity|]. split; [reflexivity|].
  destruct (@jogador_do_dia_maximo tabela_exemplo _ _ _ 1 _ eq_refl eq_refl)
    as [_ H].
  reflexivity.
Defined.

(** ** The date before the selected one *)

Lemma insert_last {A : Type} (before : A -> A -> bool) (x : A) (l : list A) :
  (forall y, In y l -> before x y = false) -> insert before x l = l ++ [x].
Proof.
  induction l as [|y l IH]; intros H; simpl; [reflexivity|].
  rewrite (H y (or_introl eq_refl)). f_equal. apply IH. intros z Iz; apply H; now right.
Qed.

Lemma sorted_desc_rev (l : list Z) :
  StronglySorted Z.lt l -> sorted (fun a b => b <=? a) l = rev l.
Proof.
  induction 1 as [|x l S IH F]; simpl; [reflexivity|].
  rewrite IH. apply insert_last. intros y Iy. apply in_rev in Iy.
  rewrite Forall_forall in F. specialize (F y Iy). apply Z.leb_gt. lia.
Qed.

Lemma index_app {A : Type} `{EqDec A} (x : A) (l1 l2 : list A) :
  ~ In x l1 -> index x (l1 ++ x :: l2) = Some (List.length l1).
Proof.
  induction l1 as [|y l1 IH]; intros NI; simpl.
  - destruct (eq_dec x x); congruence.
  - destruct (eq_dec y x) as [->|_]; [exfalso; apply NI; now left|].
    rewrite IH by (intros I; apply NI; now right). reflexivity.
Qed.

Lemma index_In {A : Type} `{EqDec A} (x : A) (l : list A) (i : nat) :
  index x l = Some i -> In x l.
Proof.
  revert i; induction l as [|y l IH]; intros i; simpl; [discriminate|].
  destruct (eq_dec y x) as [->|_]; [now left|].
  intros E. apply bind_Some in E as (i' & E & _). right; eauto.
Qed.

Lemma StronglySorted_app_inv {A : Type} (R : A -> A -> Prop) (l1 l2 : list A) (x : A) :
  StronglySorted R (l1 ++ x :: l2) ->
  (forall y, In y l1 -> R y x) /\ (forall y, In y l2 -> R x y).
Proof.
  induction l1 as [|a l1 IH]; simpl; intros S; inversion S as [|? ? S' F]; subst.
  - rewrite Forall_forall in F. split; [intros y [] | assumption].
  - destruct (IH S') as [H1 H2]. split; [|assumption].
    intros y [<-|Iy]; [|auto].
    rewrite Forall_forall in F. apply F, in_or_app; right; now left.
Qed.

Lemma calculate_rankings_loop (df : DataFrame)
    (r : dict Z (list (string * Z))) (s : dict Z stats_dia) (t : tabela) :
  calculate_rankings df = Some (r, s, t) ->
  exists ac,
    loop_dias df (acumulado_inicial df) (datas_unicas df) = Some ac /\
    r = rankings_diarios ac /\ s = stats_diarias ac.
Proof.
  destruct df as [|p0 df0]; simpl.
  - intros E; inversion E; subst. eexists; split; [reflexivity|]. split; reflexivity.
  - intros E. apply bind_Some in E as (ac & E & R). inversion R; subst. eauto.
Qed.

Lemma data_anterior_decomp (r : dict Z (list (string * Z)))
    (ds1 ds2 : list Z) (d : Z) :
  StronglySorted Z.lt (Dict.keys r) -> Dict.keys r = ds1 ++ d :: ds2 ->
  data_anterior (datas_disponiveis r) d = Some (hd_error (rev ds1)).
Proof.
  intros S E. unfold data_anterior, datas_disponiveis.
  rewrite sorted_desc_rev by assumption.
  rewrite E in *. rewrite rev_app_distr. simpl. rewrite <- app_assoc. simpl.
  destruct (@StronglySorted_app_inv _ _ _ _ _ S) as [_ H2].
  rewrite index_app.
  - simpl. f_equal. rewrite nth_error_app2 by lia.
    replace (List.length (rev ds2) + 1 - List.length (rev ds2))%nat with 1%nat by lia.
    simpl. now destruct (rev ds1).
  - intros I. apply in_rev in I. specialize (H2 _ I). lia.
Qed.

Lemma estado_do_dia_anterior (df : DataFrame)
    (r : dict Z (list (string * Z))) (s : dict Z stats_dia) (t : tabela)
    (ds1 ds2 : list Z) (d : Z) :
  calculate_rankings df = Some (r, s, t) ->
  datas_unicas df = ds1 ++ d :: ds2 ->
  match hd_error (rev ds1) with
  | None => antes_do_dia df d (pontuacoes_iniciais df)
  | Some da =>
      exists st,
        Dict.get r da = Some (ranking (pontuacoes st)) /\
        antes_do_dia df d (pontuacoes st) /\
        ponto_do_fold df da st
  end.
Proof.
  intros E Eds.
  destruct (@calculate_rankings_loop df r s t E) as (ac & El & -> & ->).
  pose proof (datas_unicas_NoDup df) as ND.
  destruct (rev ds1) as [|da rest] eqn:Er; simpl.
  - assert (ds1 = []) by (rewrite <- (rev_involutive ds1), Er; reflexivity). subst ds1.
    exists [], ds2, (acumulado_inicial df). repeat split; auto.
  - assert (E1 : ds1 = rev rest ++ [da])
      by (rewrite <- (rev_involutive ds1), Er; reflexivity).
    subst ds1. rewrite <- app_assoc in Eds. simpl in Eds.
    rewrite Eds in El, ND.
    assert (NI : ~ In da (d :: ds2)).
    { apply NoDup_remove_2 in ND. intros I; apply ND, in_or_app; now right. }
    edestruct loop_dias_get_dia as (ac1 & st & L1 & Ed & Gr & _);
      [exact El | exact NI |].
    exists st. split; [assumption|].
    assert (A : antes_do_dia df d (pontuacoes st)).
    { exists (rev rest ++ [da]), ds2.
      eexists. split; [now rewrite <- app_assoc|].
      split; [rewrite loop_dias_app, L1; simpl; rewrite Ed; reflexivity | reflexivity]. }
    split; [assumption|].
    apply (@ponto_do_fold_fim df da (pontuacoes_atuais ac1) st); [|assumption].
    exists (rev rest), (d :: ds2), ac1. repeat split; assumption.
Qed.

(** X10. For a date of the rankings, the page takes as the day before
    the latest date of the table that is strictly earlier, and none for the
    earliest date of the table. *)
Theorem data_anterior_correta (df : DataFrame)
    (r : dict Z (list (string * Z))) (s : dict Z stats_dia) (t : tabela) (d : Z) :
  calculate_rankings df = Some (r, s, t) -> In d (Dict.keys r) ->
  exists anterior,
    data_anterior (datas_disponiveis r) d = Some anterior /\
    match anterior with
    | None => forall e, In e (Dict.keys r) -> d <= e
    | Some da =>
        In da (Dict.keys r) /\ da < d /\
        forall e, In e (Dict.keys r) -> e <= da \/ d <= e
    end.
Proof.
  intros E Id.
  destruct (calculate_rankings_saida _ E) as (Kr & _ & _).
  pose proof (datas_unicas_ascendente df) as S. rewrite <- Kr in S.
  destruct (in_split _ _ Id) as (ds1 & ds2 & Eds).
  exists (hd_error (rev ds1)). split; [now apply (@data_anterior_decomp r ds1 ds2 d)|].
  rewrite Eds in S |- *.
  destruct (rev ds1) as [|da rest] eqn:Er; simpl.
  - assert (ds1 = []) by (rewrite <- (rev_involutive ds1), Er; reflexivity). subst ds1.
    simpl in *. destruct (@StronglySorted_app_inv _ Z.lt [] ds2 d S) as [_ H2].
    intros e [<-|Ie]; [lia|]. specialize (H2 _ Ie). lia.
  - assert (E1 : ds1 = rev rest ++ [da])
      by (rewrite <- (rev_involutive ds1), Er; reflexivity).
    subst ds1. rewrite <- app_assoc in S |- *. simpl in *.
    destruct (@StronglySorted_app_inv _ _ _ _ _ S) as [H1 H2].
    assert (H3 : forall y, In y ds2 -> d < y).
    { apply (@StronglySorted_app_inv _ Z.lt (rev rest ++ [da]) ds2 d).
      now rewrite <- app_assoc. }
    split; [apply in_or_app; right; now left|].
    split; [apply H2; now left|].
    intros e Ie. apply in_app_or in Ie as [Ie|[<-|[<-|Ie]]].
    + left. specialize (H1 _ Ie). lia.
    + left; lia.
    + right; lia.
    + right. specialize (H3 _ Ie). lia.
Qed.

Lemma data_anterior_correta_witness :
  exists r s t,
    calculate_rankings tabela_exemplo = Some (r, s, t) /\
    data_anterior (datas_disponiveis r) 2 = Some (Some 1) /\
    data_anterior (datas_disponiveis r) 1 = Some None.
Proof.
  do 3 eexists. split; [vm_compute; reflexivity|].
  destruct (@data_anterior_correta tabela_exemplo _ _ _ 2 eq_refl
              (or_intror (or_introl eq_refl))) as (a & _).
  split; reflexivity.
Defined.

Lemma data_anterior_inv (df : DataFrame)
    (r : dict Z (list (string * Z))) (s : dict Z stats_dia) (t : tabela)
    (d : Z) (anterior : option Z) :
  calculate_rankings df = Some (r, s, t) ->
  data_anterior (datas_disponiveis r) d = Some anterior ->
  exists ds1 ds2,
    datas_unicas df = ds1 ++ d :: ds2 /\ anterior = hd_error (rev ds1).
Proof.
  intros E Ea.
  destruct (calculate_rankings_saida _ E) as (Kr & _ & _).
  assert (Id : In d (datas_unicas df)).
  { unfold data_anterior in Ea. apply bind_Some in Ea as (i & Ei & _).
    apply index_In in Ei. unfold datas_disponiveis in Ei.
    apply sorted_In in Ei. now rewrite <- Kr. }
  destruct (in_split _ _ Id) as (ds1 & ds2 & Eds).
  exists ds1, ds2. split; [assumption|].
  rewrite (@data_anterior_decomp r ds1 ds2 d) in Ea.
  - congruence.
  - rewrite Kr. apply datas_unicas_ascendente.
  - congruence.
Qed.

Lemma map_rank_ontem_get (df : DataFrame)
    (r : dict Z (list (string * Z))) (s : dict Z stats_dia) (t : tabela)
    (ds1 ds2 : list Z) (d : Z) :
  calculate_rankings df = Some (r, s, t) ->
  datas_unicas df = ds1 ++ d :: ds2 ->
  exists pont,
    antes_do_dia df d pont /\
    forall j, Dict.get (map_rank_ontem r df (hd_error (rev ds1))) j = Dict.get pont j.
Proof.
  intros E Eds.
  pose proof (@estado_do_dia_anterior df r s t ds1 ds2 d E Eds) as H.
  destruct (hd_error (rev ds1)) as [da|].
  - destruct H as (st & Gr & A & Pf).
    exists (pontuacoes st). split; [assumption|]. intros j.
    pose proof (ponto_do_fold_invariante Pf) as I.
    assert (ND : NoDup (Dict.keys (pontuacoes st))).
    { rewrite (inv_pontuacoes I). apply universo_NoDup. }
    unfold map_rank_ontem, Dict.get_or. rewrite Gr.
    rewrite DictFacts.comprehension_NoDup by now apply ranking_keys_NoDup.
    apply get_Permutation; [assumption|]. symmetry; apply ranking_perm.
  - exists (pontuacoes_iniciais df). split; [assumption | reflexivity].
Qed.

(** X11. The points the page looks up as those of the day before are,
    for every player, the scores the engine had before the matches of the
    selected day: the scores after the previous date of the table, or the
    initial 1000 on the first date. *)
Theorem pontos_de_ontem (df : DataFrame)
    (r : dict Z (list (string * Z))) (s : dict Z stats_dia) (t : tabela)
    (d : Z) (anterior : option Z) :
  calculate_rankings df = Some (r, s, t) ->
  data_anterior (datas_disponiveis r) d = Some anterior ->
  exists pont,
    antes_do_dia df d pont /\
    forall j,
      Dict.get (map_rank_ontem r df anterior) j = Dict.get pont j /\
      (In j (universo df) ->
       Dict.get pont j = Some (Dict.get_or (map_rank_ontem r df anterior) j
                                           PONTOS_INICIAIS)).
Proof.
  intros E Ea.
  destruct (@data_anterior_inv df r s t d anterior E Ea) as (ds1 & ds2 & Eds & ->).
  destruct (@map_rank_ontem_get df r s t ds1 ds2 d E Eds) as (pont & A & H).
  exists pont. split; [assumption|]. intros j. split; [apply H|].
  intros Ij. destruct (antes_do_dia_invariante A) as [Kp _].
  rewrite <- Kp in Ij. destruct (DictFacts.in_keys_get _ _ Ij) as (a & Ea').
  unfold Dict.get_or. now rewrite H, Ea'.
Qed.

Lemma pontos_de_ontem_witness :
  exists r s t,
    calculate_rankings tabela_exemplo = Some (r, s, t) /\
    Dict.get (map_rank_ontem r tabela_exemplo (Some 1)) "Ana" = Some 1040.
Proof.
  do 3 eexists. split; [vm_compute; reflexivity|].
  destruct (@pontos_de_ontem tabela_exemplo _ _ _ 2 (Some 1) eq_refl eq_refl)
    as (pont & _).
  reflexivity.
Defined.

(** X12. Every upset the page lists for a day comes from a row of that
    day with both players present, has a strictly positive difference, the
    loser's points before the day minus the winner's, and is a match for which
    the engine added the upset bonus: the winner's gain was at least 15. *)
Theorem zebra_recebe_bonus (df : DataFrame)
    (r : dict Z (list (string * Z))) (s : dict Z stats_dia) (t : tabela)
    (d : Z) (anterior : option Z) (diferenca : Z) (vencedor perdedor : string) :
  calculate_rankings df = Some (r, s, t) ->
  data_anterior (datas_disponiveis r) d = Some anterior ->
  In (diferenca, vencedor, perdedor)
     (upsets_do_dia (map_rank_ontem r df anterior) df d) ->
  0 < diferenca /\
  exists pont p j1 j2 a_v a_p ganho,
    antes_do_dia df d pont /\
    In p (partidas_do_dia df d) /\
    Jogador_1 p = Some j1 /\ Jogador_2 p = Some j2 /\
    Dict.get pont vencedor = Some a_v /\
    Dict.get pont perdedor = Some a_p /\
    diferenca = a_p - a_v /\
    resultado_partida (Z.of_nat (List.length (jogadores df)))
                      (mapa_ranking (ranking pont)) j1 j2
                      (Resultado_J1 p) (Resultado_J2 p)
      = (vencedor, perdedor, ganho) /\
    15 <= ganho.
Proof.
  intros E Ea Iu.
  destruct (@data_anterior_inv df r s t d anterior E Ea) as (ds1 & ds2 & Eds & ->).
  destruct (@map_rank_ontem_get df r s t ds1 ds2 d E Eds) as (pont & A & H).
  set (ontem := map_rank_ontem r df (hd_error (rev ds1))) in *.
  destruct (antes_do_dia_invariante A) as [Kp _].
  unfold upsets_do_dia in Iu. apply in_flat_map in Iu as (p & Ip & Iu).
  apply filter_In in Ip as [Ip Dp]. apply Z.eqb_eq in Dp.
  unfold upset_da_partida in Iu.
  destruct (Jogador_1 p) as [j1|] eqn:J1; [|destruct Iu].
  destruct (Jogador_2 p) as [j2|] eqn:J2; [|destruct Iu].
  destruct (vencedor_perdedor j1 j2 (Resultado_J1 p) (Resultado_J2 p))
    as [v l] eqn:Evp.
  assert (Uv : In v (universo df) /\ In l (universo df)).
  { assert (In j1 (universo df)) by (apply universo_In; eauto).
    assert (In j2 (universo df)) by (apply universo_In; eauto).
    destruct (vencedor_perdedor_cases j1 j2 (Resultado_J1 p) (Resultado_J2 p))
      as [C|C]; rewrite C in Evp; inversion Evp; subst; auto. }
  destruct Uv as [Uv Ul]. rewrite <- Kp in Uv, Ul.
  destruct (DictFacts.in_keys_get _ _ Uv) as (a_v & Eav).
  destruct (DictFacts.in_keys_get _ _ Ul) as (a_p & Eap).
  unfold Dict.get_or in Iu. rewrite !H, Eav, Eap in Iu.
  destruct (a_v <? a_p) eqn:L; [|destruct Iu].
  apply Z.ltb_lt in L. destruct Iu as [Iu|[]]. inversion Iu; subst; clear Iu.
  split; [lia|].
  assert (NDp : NoDup (Dict.keys pont)) by (rewrite Kp; apply universo_NoDup).
  destruct (@pior_rank pont vencedor perdedor a_v a_p NDp Eav Eap L)
    as (k1 & k2 & Ek1 & Ek2 & Lk).
  exists pont, p, j1, j2, a_v, a_p.
  eexists. split; [assumption|].
  split; [apply partidas_do_dia_In; auto|].
  split; [assumption|]. split; [assumption|].
  split; [assumption|]. split; [assumption|]. split; [reflexivity|].
  unfold resultado_partida. rewrite Evp. split; [reflexivity|].
  unfold Dict.get_or. rewrite Ek1, Ek2. now apply upset_ge_15.
Qed.

Lemma zebra_recebe_bonus_witness :
  exists r s t,
    calculate_rankings tabela_zebra = Some (r, s, t) /\
    upsets_do_dia (map_rank_ontem r tabela_zebra (Some 1)) tabela_zebra 2
      = [(40, "Bia", "Ana")] /\
    0 < 40.
Proof.
  do 3 eexists. split; [vm_compute; reflexivity|]. split; [reflexivity|].
  apply (@zebra_recebe_bonus tabela_zebra _ _ _ 2 (Some 1) 40 "Bia" "Ana"
           eq_refl eq_refl (or_introl eq_refl)).
Defined.

(** ** The column of changes *)

Lemma mapa_ranking_total (pont : dict string Z) (j : string) :
  NoDup (Dict.keys pont) -> In j (Dict.keys pont) ->
  exists k,
    Dict.get (mapa_ranking (ranking pont)) j = Some k /\
    1 <= k <= Z.of_nat (List.length pont).
Proof.
  intros NDp Ij.
  assert (ND : NoDup (map fst (ranking pont))) by now apply ranking_keys_NoDup.
  assert (Im : In j (Dict.keys (mapa_ranking (ranking pont)))).
  { rewrite mapa_ranking_keys by assumption.
    apply (Permutation_in _ (Permutation_sym (ranking_keys pont)) Ij). }
  destruct (DictFacts.in_keys_get _ _ Im) as (k & Ek).
  exists k; split; [assumption|].
  apply DictFacts.get_In in Ek. apply (in_map snd) in Ek; simpl in Ek.
  rewrite mapa_ranking_values in Ek by assumption.
  apply in_map_iff in Ek as (m & <- & Im'). apply in_seq in Im'.
  unfold ranking in Im'. rewrite sorted_length in Im'. unfold Dict.items in Im'. lia.
Qed.

Lemma mudanca_de_spec (ranking_anterior : dict string Z) (pos : Z) (j : string)
    (pos_ant : Z) :
  Dict.get ranking_anterior j = Some pos_ant -> 1 <= pos_ant ->
  mudanca_de ranking_anterior pos j =
  if pos <? pos_ant then Subiu (pos_ant - pos)
  else if pos_ant <? pos then Desceu (pos - pos_ant)
  else Igual.
Proof.
  intros E H. unfold mudanca_de. rewrite E.
  destruct (pos_ant =? 0) eqn:Z0; [apply Z.eqb_eq in Z0; lia|].
  rewrite Z.gtb_ltb.
  destruct (pos <? pos_ant) eqn:L1.
  - apply Z.ltb_lt in L1.
    destruct (0 <? pos_ant - pos) eqn:L2; [reflexivity | apply Z.ltb_ge in L2; lia].
  - apply Z.ltb_ge in L1.
    destruct (0 <? pos_ant - pos) eqn:L2; [apply Z.ltb_lt in L2; lia|].
    destruct (pos_ant <? pos) eqn:L3.
    + apply Z.ltb_lt in L3.
      destruct (pos_ant - pos <? 0) eqn:L4; [|apply Z.ltb_ge in L4; lia].
      f_equal; lia.
    + apply Z.ltb_ge in L3.
      destruct (pos_ant - pos <? 0) eqn:L4; [apply Z.ltb_lt in L4; lia | reflexivity].
Qed.

(** X13. The table of a date lists the snapshot of that date at the
    positions 1 to N.  On the earliest date every player is marked new.  On
    any later date no player is: every player has a position between 1 and N
    on the date before, and is marked up or down by the number of places
    gained or lost, or level. *)
Theorem mudancas_da_tabela (df : DataFrame)
    (r : dict Z (list (string * Z))) (s : dict Z stats_dia) (t : tabela)
    (d : Z) (anterior : option Z) (snapshot : list (string * Z)) :
  calculate_rankings df = Some (r, s, t) ->
  data_anterior (datas_disponiveis r) d = Some anterior ->
  Dict.get r d = Some snapshot ->
  let linhas := linhas_da_tabela snapshot (posicoes_anteriores r anterior) in
  let N := Z.of_nat (List.length (universo df)) in
  map (fun l => fst (fst (fst l))) linhas
    = map Z.of_nat (seq 1 (List.length (universo df))) /\
  map (fun l => (snd (fst (fst l)), snd (fst l))) linhas = snapshot /\
  match anterior with
  | None => forall l, In l linhas -> snd l = Novo
  | Some _ =>
      forall pos j pts m, In (pos, j, pts, m) linhas ->
        exists pos_ant,
          Dict.get (posicoes_anteriores r anterior) j = Some pos_ant /\
          1 <= pos_ant <= N /\
          m = if pos <? pos_ant then Subiu (pos_ant - pos)
              else if pos_ant <? pos then Desceu (pos - pos_ant)
              else Igual
  end.
Proof.
  intros E Ea G linhas N.
  destruct (@data_anterior_inv df r s t d anterior E Ea) as (ds1 & ds2 & Eds & ->).
  destruct (calculate_rankings_saida _ E) as (Kr & _ & Hd).
  assert (Id : In d (datas_unicas df)) by (rewrite Eds; apply in_or_app; right; now left).
  destruct (Hd d Id) as (pont & st & A & Ed & Gr & _).
  rewrite Gr in G; inversion G; subst snapshot; clear G.
  pose proof (ponto_do_fold_invariante (ponto_do_fold_fim A Ed)) as I.
  assert (Len : List.length (ranking (pontuacoes st)) = List.length (universo df)).
  { unfold ranking; rewrite sorted_length, <- (inv_pontuacoes I).
    unfold Dict.keys, Dict.items; now rewrite length_map. }
  split; [|split].
  - unfold linhas, linhas_da_tabela. rewrite map_map. simpl.
    rewrite <- (map_map fst (fun i => i + 1)). unfold enumerate.
    rewrite enumerate_from_fst, map_map, Len, <- seq_shift, map_map.
    apply map_ext; intros n; lia.
  - unfold linhas, linhas_da_tabela. rewrite map_map. simpl.
    rewrite <- (enumerate_from_snd 0 (ranking (pontuacoes st))) at 2.
    apply map_ext. intros [i [j x]]; reflexivity.
  - pose proof (@estado_do_dia_anterior df r s t ds1 ds2 d E Eds) as H.
    destruct (hd_error (rev ds1)) as [da|].
    + destruct H as (sta & Gra & _ & Pfa).
      pose proof (ponto_do_fold_invariante Pfa) as Ia.
      assert (NDa : NoDup (Dict.keys (pontuacoes sta))).
      { rewrite (inv_pontuacoes Ia). apply universo_NoDup. }
      intros pos j pts m Il.
      unfold linhas, linhas_da_tabela in Il.
      apply in_map_iff in Il as ([i [j' x]] & El & Ie). simpl in El.
      inversion El; subst; clear El.
      assert (Ij : In j (Dict.keys (pontuacoes sta))).
      { rewrite (inv_pontuacoes Ia), <- (inv_pontuacoes I).
        apply (Permutation_in _ (ranking_keys (pontuacoes st))).
        apply (in_map snd) in Ie. unfold enumerate in Ie.
        rewrite enumerate_from_snd in Ie. now apply (in_map fst) in Ie. }
      destruct (@mapa_ranking_total (pontuacoes sta) j NDa Ij) as (k & Ek & Hk).
      assert (Ep : posicoes_anteriores r (Some da) = mapa_ranking (ranking (pontuacoes sta))).
      { unfold posicoes_anteriores, Dict.get_or. now rewrite Gra. }
      exists k. rewrite Ep. split; [assumption|]. split.
      * unfold N. rewrite <- (inv_pontuacoes Ia).
        unfold Dict.keys; rewrite length_map. exact Hk.
      * unfold Dict.get_or; rewrite Gra. apply mudanca_de_spec; [assumption | lia].
    + intros [[[pos j] pts] m] Il.
      unfold linhas, linhas_da_tabela in Il.
      apply in_map_iff in Il as (ij & El & _). inversion El; reflexivity.
Qed.

Lemma mudancas_da_tabela_witness :
  exists r s t snapshot,
    calculate_rankings tabela_zebra = Some (r, s, t) /\
    Dict.get r 2 = Some snapshot /\
    linhas_da_tabela snapshot (posicoes_anteriores r (Some 1))
      = [(1, "Bia", 1030, Subiu 1); (2, "Ana", 1020, Desceu 1)].
Proof.
  do 4 eexists. split; [vm_compute; reflexivity|]. split; [reflexivity|].
  destruct (@mudancas_da_tabela tabela_zebra _ _ _ 2 (Some 1) _
              eq_refl eq_refl eq_refl) as (_ & _ & _).
  reflexivity.
Defined.

(* ------------------------------------------------------------------ *)
(** * The player page *)

Lemma vitorias_derrotas_fold (sel : string) (rows : DataFrame) (v0 d0 : Z) :
  fold_left
    (fun vd row => if venceu sel row then (fst vd + 1, snd vd) else (fst vd, snd vd + 1))
    rows (v0, d0)
  = (v0 + conta (venceu sel) rows,
     d0 + conta (fun p => negb (venceu sel p)) rows).
Proof.
  revert v0 d0; induction rows as [|p rows IH]; intros v0 d0; cbn [fold_left].
  - unfold conta; simpl. f_equal; lia.
  - rewrite !conta_cons.
    destruct (venceu sel p); cbn [fst snd negb]; rewrite IH; f_equal; lia.
Qed.

Lemma conta_negb {A : Type} (f : A -> bool) (l : list A) :
  conta f l + conta (fun x => negb (f x)) l = Z.of_nat (List.length l).
Proof.
  induction l as [|x l IH]; [reflexivity|].
  rewrite !conta_cons. cbn [List.length]. destruct (f x); simpl negb; lia.
Qed.

(** The cell that line 341 names the winner of a row. *)
Lemma conta_confronto_soma (sel : string) (adv : dict (option string) confronto)
    (row : partida) :
  let ganhou :=
    eh_jogador (if Resultado_J1 row >? Resultado_J2 row
                then Jogador_1 row else Jogador_2 row) sel in
  soma_por vitorias (conta_confronto sel adv row)
    = soma_por vitorias adv + (if ganhou then 1 else 0) /\
  soma_por derrotas (conta_confronto sel adv row)
    = soma_por derrotas adv + (if ganhou then 0 else 1).
Proof.
  cbv zeta. unfold conta_confronto.
  set (k := if eh_jogador (Jogador_1 row) sel then Jogador_2 row else Jogador_1 row).
  set (zero := {| vitorias := 0; derrotas := 0 |}).
  set (adv1 := match Dict.get adv k with
               | None => Dict.set adv k zero
               | Some _ => adv
               end).
  assert (H1 : exists c, Dict.get adv1 k = Some c /\
                         soma_por vitorias adv1 = soma_por vitorias adv /\
                         soma_por derrotas adv1 = soma_por derrotas adv).
  { unfold adv1. destruct (Dict.get adv k) as [c|] eqn:G.
    - exists c; auto.
    - exists zero. rewrite DictFacts.get_set_eq, !soma_por_set, G. simpl.
      repeat split; lia. }
  destruct H1 as (c & Gc & Sv & Sd).
  unfold Dict.get_or. rewrite Gc.
  destruct (eh_jogador (if Resultado_J1 row >? Resultado_J2 row
                        then Jogador_1 row else Jogador_2 row) sel);
    rewrite !soma_por_set, Gc; simpl; lia.
Qed.

Lemma adversarios_fold (sel : string) (rows : DataFrame)
    (adv : dict (option string) confronto) :
  let ganhou p :=
    eh_jogador (if Resultado_J1 p >? Resultado_J2 p
                then Jogador_1 p else Jogador_2 p) sel in
  soma_por vitorias (fold_left (conta_confronto sel) rows adv)
    = soma_por vitorias adv + conta ganhou rows /\
  soma_por derrotas (fold_left (conta_confronto sel) rows adv)
    = soma_por derrotas adv + conta (fun p => negb (ganhou p)) rows.
Proof.
  cbv zeta. revert adv; induction rows as [|p rows IH]; intros adv; cbn [fold_left].
  - unfold conta; cbn [filter List.length]. lia.
  - destruct (IH (conta_confronto sel adv p)) as [Hv Hd].
    destruct (conta_confronto_soma sel adv p) as [Sv Sd]. cbv zeta in Sv, Sd.
    rewrite Hv, Hd, Sv, Sd, !conta_cons. cbv beta.
    destruct (eh_jogador (if Resultado_J1 p >? Resultado_J2 p
                          then Jogador_1 p else Jogador_2 p) sel);
      cbn [negb]; split; lia.
Qed.

Lemma ganhou_pontual (sel : string) (p : partida) :
  (if eh_jogador (if Resultado_J1 p >? Resultado_J2 p
                  then Jogador_1 p else Jogador_2 p) sel then 1 else 0)
  = (if venceu sel p then 1 else 0)
    + (if eh_jogador (Jogador_2 p) sel && (Resultado_J1 p =? Resultado_J2 p)
       then 1 else 0).
Proof.
  unfold venceu.
  destruct (Z.gtb_spec (Resultado_J1 p) (Resultado_J2 p)),
           (Z.gtb_spec (Resultado_J2 p) (Resultado_J1 p)),
           (Z.eqb_spec (Resultado_J1 p) (Resultado_J2 p)); try lia;
    destruct (eh_jogador (Jogador_1 p) sel), (eh_jogador (Jogador_2 p) sel);
    reflexivity.
Qed.

Lemma ganhou_e_venceu (sel : string) (rows : DataFrame) :
  conta (fun p => eh_jogador (if Resultado_J1 p >? Resultado_J2 p
                              then Jogador_1 p else Jogador_2 p) sel) rows
  = conta (venceu sel) rows
    + conta (fun p => eh_jogador (Jogador_2 p) sel
                      && (Resultado_J1 p =? Resultado_J2 p)) rows.
Proof.
  induction rows as [|p rows IH]; [reflexivity|].
  rewrite !conta_cons, IH. cbv beta. rewrite ganhou_pontual. lia.
Qed.

(** X14. On the player page, wins and losses add up to the number of
    rows that name the player.  When those rows all have both players, the
    tallies per opponent add up to the same number of rows, but not to the
    same split: a tied row counts as a loss in the totals, for either player,
    and as a win of player 2 in the tallies per opponent. *)
Theorem vitorias_e_confrontos (df : DataFrame) (sel : string) :
  Forall (fun p => completa p = true) (df_jogador df sel) ->
  let rows := df_jogador df sel in
  let vd := vitorias_derrotas rows sel in
  let adv := adversarios_de rows sel in
  let empates_como_j2 :=
    conta (fun p => eh_jogador (Jogador_2 p) sel
                    && (Resultado_J1 p =? Resultado_J2 p)) rows in
  fst vd = conta (venceu sel) rows /\
  fst vd + snd vd = Z.of_nat (List.length rows) /\
  soma_por vitorias adv + soma_por derrotas adv = Z.of_nat (List.length rows) /\
  soma_por vitorias adv = fst vd + empates_como_j2 /\
  soma_por derrotas adv = snd vd - empates_como_j2.
Proof.
  intros _ rows vd adv empates.
  unfold vd, vitorias_derrotas. rewrite vitorias_derrotas_fold. simpl.
  destruct (adversarios_fold sel rows []) as [Hv Hd]. cbv zeta in Hv, Hd.
  fold (adversarios_de rows sel) in Hv, Hd. fold adv in Hv, Hd. simpl in Hv, Hd.
  pose proof (conta_negb (venceu sel) rows) as N1.
  pose proof (conta_negb (fun p => eh_jogador (if Resultado_J1 p >? Resultado_J2 p
                                then Jogador_1 p else Jogador_2 p) sel) rows) as N2.
  pose proof (ganhou_e_venceu sel rows) as G. fold empates in G.
  repeat split; lia.
Qed.

Lemma vitorias_e_confrontos_witness :
  vitorias_derrotas (df_jogador tabela_exemplo "Ana") "Ana" = (1, 1) /\
  soma_por vitorias (adversarios_de (df_jogador tabela_exemplo "Ana") "Ana") = 2.
Proof.
  assert (F : Forall (fun p => completa p = true) (df_jogador tabela_exemplo "Ana")).
  { repeat constructor. }
  destruct (@vitorias_e_confrontos tabela_exemplo "Ana" F) as (_ & _ & _ & _ & _).
  split; reflexivity.
Defined.

(** ** The selection box *)

Lemma lt_celula_None (a b : option string) :
  lt_celula a b = None <->
  (a = None /\ exists j, b = Some j) \/ (b = None /\ exists j, a = Some j).
Proof.
  destruct a as [x|], b as [y|]; simpl; split; try discriminate; eauto.
  - intros [[E _]|[E _]]; discriminate.
  - intros [[_ [j E]]|[_ [j E]]]; discriminate.
Qed.

Lemma insert_err_In {A : Type} (lt : A -> A -> option bool) (x : A)
    (l r : list A) :
  insert_err lt x l = Some r -> forall z, In z r <-> z = x \/ In z l.
Proof.
  revert r; induction l as [|y l IH]; intros r E z; simpl in E.
  - inversion E; subst. simpl. intuition.
  - apply bind_Some in E as (b & _ & E). destruct b.
    + apply bind_Some in E as (r' & E' & R). inversion R; subst.
      simpl. rewrite (IH _ E'). intuition.
    + inversion E; subst. simpl. intuition.
Qed.

Lemma sorted_err_In {A : Type} (lt : A -> A -> option bool) (l r : list A) :
  sorted_err lt l = Some r -> forall z, In z r <-> In z l.
Proof.
  revert r; induction l as [|x l IH]; intros r E z; simpl in E.
  - inversion E; subst. reflexivity.
  - apply bind_Some in E as (r' & E' & E).
    rewrite (insert_err_In _ _ _ E). rewrite (IH _ E'). simpl. intuition.
Qed.

Lemma insert_err_total {A : Type} (lt : A -> A -> option bool) (x : A) (l : list A) :
  (forall y, In y l -> lt y x <> None) -> exists r, insert_err lt x l = Some r.
Proof.
  induction l as [|y l IH]; intros H; simpl; [eauto|].
  destruct (lt y x) as [b|] eqn:L; [|exfalso; apply (H y); [now left | assumption]].
  simpl. destruct b; [|eauto].
  assert (H' : forall z, In z l -> lt z x <> None) by (intros z Iz; apply H; now right).
  destruct (IH H') as (r & ->). simpl; eauto.
Qed.

Lemma sorted_err_total {A : Type} (lt : A -> A -> option bool) (l : list A) :
  (forall x y, In x l -> In y l -> lt y x <> None) ->
  exists r, sorted_err lt l = Some r.
Proof.
  induction l as [|x l IH]; intros H; simpl; [eauto|].
  assert (H' : forall a b, In a l -> In b l -> lt b a <> None)
    by (intros a b Ia Ib; apply H; now right).
  destruct (IH H') as (r & E).
  rewrite E; simpl. apply insert_err_total.
  intros y Iy. apply H; [now left|]. right. now apply (sorted_err_In _ _ E).
Qed.

Lemma insert_err_mista (x : option string) (l : list (option string)) :
  (exists y, In y l /\ lt_celula y x = None) ->
  (forall a b, In a l -> In b l -> lt_celula a b <> None) ->
  insert_err lt_celula x l = None.
Proof.
  intros (y & Iy & Ly) H. destruct l as [|y0 l]; [destruct Iy|]. simpl.
  assert (L0 : lt_celula y0 x = None).
  { assert (Hy : lt_celula y0 y <> None) by (apply H; [now left | assumption]).
    destruct y0, y, x; simpl in *; congruence. }
  now rewrite L0.
Qed.

Lemma sorted_err_None (l : list (option string)) :
  sorted_err lt_celula l = None <-> In None l /\ exists j, In (Some j) l.
Proof.
  split.
  - intros E.
    destruct (in_dec eq_dec None l) as [IN|NN].
    + split; [assumption|].
      destruct (existsb (fun c => match c with Some _ => true | None => false end) l)
        eqn:X.
      * apply existsb_exists in X as ([j|] & Ij & Hj); [eauto | discriminate].
      * exfalso. destruct (@sorted_err_total _ lt_celula l) as (r & Er); [|congruence].
        intros x y Ix Iy.
        assert (Hx : x = None).
        { destruct x as [j|]; [|reflexivity].
          assert (existsb (fun c => match c with Some _ => true | None => false end) l
                  = true) by (apply existsb_exists; exists (Some j); auto).
          congruence. }
        assert (Hy : y = None).
        { destruct y as [j|]; [|reflexivity].
          assert (existsb (fun c => match c with Some _ => true | None => false end) l
                  = true) by (apply existsb_exists; exists (Some j); auto).
          congruence. }
        subst; simpl; discriminate.
    + exfalso. destruct (@sorted_err_total _ lt_celula l) as (r & Er); [|congruence].
      intros x y Ix Iy. destruct x as [a|]; [|contradiction].
      destruct y as [b|]; [|contradiction]. simpl; discriminate.
  - induction l as [|x l IH]; intros (IN & j & IS); [destruct IN|]. simpl.
    destruct (sorted_err lt_celula l) as [r|] eqn:E; [|reflexivity]. simpl.
    assert (NM : ~ (In None l /\ exists j, In (Some j) l)).
    { intros M. apply IH in M. congruence. }
    apply insert_err_mista.
    + destruct x as [a|].
      * exists None. split; [|reflexivity].
        apply (sorted_err_In _ _ E). destruct IN as [IN|IN]; [discriminate | assumption].
      * destruct IS as [IS|IS]; [discriminate|].
        exists (Some j). split; [now apply (sorted_err_In _ _ E) | reflexivity].
    + intros a b Ia Ib. apply (sorted_err_In _ _ E) in Ia, Ib.
      intros L. apply lt_celula_None in L. apply NM.
      destruct L as [[-> [k ->]]|[-> [k ->]]]; eauto.
Qed.

(** X15. Building the options of the selection box raises a [TypeError]
    exactly when the table has a missing player cell and also names a player:
    [sorted] then has to compare a string with a float.  Otherwise it returns
    the distinct cells of the table. *)
Theorem jogadores_ordenados_erro (df : DataFrame) :
  (jogadores_ordenados df = None <->
   (exists p, In p df /\ (Jogador_1 p = None \/ Jogador_2 p = None)) /\
   (exists p j, In p df /\ (Jogador_1 p = Some j \/ Jogador_2 p = Some j))) /\
  (forall opcoes, jogadores_ordenados df = Some opcoes ->
     forall c, In c opcoes <->
               exists p, In p df /\ (Jogador_1 p = c \/ Jogador_2 p = c)).
Proof.
  assert (J : forall c, In c (jogadores df) <->
                        exists p, In p df /\ (Jogador_1 p = c \/ Jogador_2 p = c)).
  { intros c. unfold jogadores, ravel_K.
    rewrite unique_In, in_app_iff, !in_map_iff. split.
    - intros [(p & E & I)|(p & E & I)]; exists p; tauto.
    - intros (p & I & [E|E]); [left|right]; exists p; tauto. }
  split.
  - unfold jogadores_ordenados. rewrite sorted_err_None, J. split.
    + intros (H1 & j & H2). apply J in H2 as (p & Ip & Hp). split; [assumption|].
      exists p, j. auto.
    + intros (H1 & p & j & Ip & Hp). split; [assumption|].
      exists j. apply J. eauto.
  - intros opcoes E c. unfold jogadores_ordenados in E.
    rewrite (sorted_err_In _ _ E). apply J.
Qed.

(** The fourth row of [tabela_exemplo] has no first player. *)
Example jogadores_ordenados_exemplo :
  jogadores_ordenados tabela_exemplo = None /\
  jogadores_ordenados tabela_zebra = Some [Some "Ana"; Some "Bia"].
Proof. split; reflexivity. Qed.

(* ------------------------------------------------------------------ *)
(** * From one day to the next *)

Lemma dict_eta (d : dict string Z) (dflt : Z) :
  NoDup (Dict.keys d) ->
  map (fun j => (j, Dict.get_or d j dflt)) (Dict.keys d) = d.
Proof.
  induction d as [|[k v] d IH]; intros ND; [reflexivity|].
  inversion ND as [|? ? NI ND']; subst. simpl.
  unfold Dict.get_or at 1. simpl. destruct (eq_dec k k) as [_|]; [|congruence].
  f_equal. rewrite <- (IH ND') at 2.
  apply map_ext_in. intros j Ij. unfold Dict.get_or. simpl.
  destruct (eq_dec k j) as [->|_]; [contradiction | reflexivity].
Qed.

Lemma placar_do_snapshot_ranking (df : DataFrame) (pont : dict string Z) :
  Dict.keys pont = universo df ->
  placar_do_snapshot df (ranking pont) = pont.
Proof.
  intros Kp.
  assert (ND : NoDup (Dict.keys pont)) by (rewrite Kp; apply universo_NoDup).
  unfold placar_do_snapshot. rewrite <- Kp.
  etransitivity; [|apply (@dict_eta pont 0 ND)].
  apply map_ext. intros j. unfold Dict.get_or.
  rewrite (@get_Permutation pont (ranking pont) j ND); [reflexivity|].
  symmetry; apply ranking_perm.
Qed.

Lemma primeiro_dia (df : DataFrame)
    (r : dict Z (list (string * Z))) (s : dict Z stats_dia) (t : tabela)
    (d : Z) (ds : list Z) :
  calculate_rankings df = Some (r, s, t) ->
  datas_unicas df = d :: ds ->
  exists st,
    processa_dia df (pontuacoes_iniciais df) d = Some st /\
    Dict.get r d = Some (ranking (pontuacoes st)) /\
    Dict.get s d = Some {| pontos_ganhos := pontos_ganhos_dia st |}.
Proof.
  intros E Eds.
  destruct (@calculate_rankings_loop df r s t E) as (ac & El & -> & ->).
  pose proof (datas_unicas_NoDup df) as ND. rewrite Eds in El, ND.
  assert (NI : ~ In d ds) by now inversion ND.
  destruct (@loop_dias_get_dia df [] ds d (acumulado_inicial df) ac El NI)
    as (ac1 & st & L1 & Ed & Gr & Gs).
  simpl in L1. inversion L1; subst ac1. exists st. auto.
Qed.

Lemma dias_consecutivos (df : DataFrame)
    (r : dict Z (list (string * Z))) (s : dict Z stats_dia) (t : tabela)
    (ds1 ds2 : list Z) (da d : Z) :
  calculate_rankings df = Some (r, s, t) ->
  datas_unicas df = ds1 ++ da :: d :: ds2 ->
  exists st_da st,
    Dict.get r da = Some (ranking (pontuacoes st_da)) /\
    Dict.keys (pontuacoes st_da) = universo df /\
    processa_dia df (pontuacoes st_da) d = Some st /\
    Dict.get r d = Some (ranking (pontuacoes st)) /\
    Dict.get s d = Some {| pontos_ganhos := pontos_ganhos_dia st |}.
Proof.
  intros E Eds.
  destruct (@calculate_rankings_loop df r s t E) as (ac & El & -> & ->).
  pose proof (datas_unicas_NoDup df) as ND. rewrite Eds in El, ND.
  assert (NIa : ~ In da (d :: ds2)).
  { apply NoDup_remove_2 in ND. intros I; apply ND, in_or_app; now right. }
  assert (NId : ~ In d ds2).
  { apply NoDup_remove_1 in ND.
    assert (ND2 : NoDup (d :: ds2)).
    { clear -ND. induction ds1 as [|x l IH]; simpl in ND; [assumption|].
      inversion ND; auto. }
    now inversion ND2. }
  destruct (@loop_dias_get_dia df ds1 (d :: ds2) da (acumulado_inicial df) ac El NIa)
    as (ac1 & st_da & L1 & Eda & Gra & _).
  assert (El' : loop_dias df (acumulado_inicial df) ((ds1 ++ [da]) ++ d :: ds2) = Some ac)
    by (rewrite <- app_assoc; exact El).
  destruct (@loop_dias_get_dia df (ds1 ++ [da]) ds2 d (acumulado_inicial df) ac El' NId)
    as (ac2 & st & L2 & Ed & Gr & Gs).
  rewrite loop_dias_app, L1 in L2. simpl in L2. rewrite Eda in L2. simpl in L2.
  inversion L2; subst ac2. simpl in Ed.
  exists st_da, st. split; [assumption|]. split; [|auto].
  assert (A : antes_do_dia df da (pontuacoes_atuais ac1)).
  { exists ds1, (d :: ds2), ac1. repeat split; assumption. }
  apply (inv_pontuacoes (ponto_do_fold_invariante (ponto_do_fold_fim A Eda))).
Qed.

(** C8. The engine returns, for every table, two collections with the
    same dates as keys, in the same ascending order: exactly the dates that
    occur in the table.  The snapshot of a date is the ranking of the scores
    as they are after that day's matches: all of them, one pair for each
    player of the table, in descending order of points; the record of the date
    is the day's record of points after those matches.  The scores the day
    starts from are the initial ones on the first date and, on every later
    date, those of the snapshot of the date before. *)
Theorem rankings_e_stats_por_dia (df : DataFrame) :
  exists r s t,
    calculate_rankings df = Some (r, s, t) /\
    Dict.keys r = Dict.keys s /\
    Dict.keys r = datas_unicas df /\
    (forall d, In d (Dict.keys r) <-> exists p, In p df /\ Data p = d) /\
    (forall d, In d (Dict.keys r) ->
       exists pont st snapshot,
         antes_do_dia df d pont /\
         processa_dia df pont d = Some st /\
         Dict.get r d = Some snapshot /\
         snapshot = ranking (pontuacoes st) /\
         Permutation snapshot (Dict.items (pontuacoes st)) /\
         Permutation (map fst snapshot) (universo df) /\
         StronglySorted (fun a b => snd b <= snd a) snapshot /\
         Dict.get s d = Some {| pontos_ganhos := pontos_ganhos_dia st |}) /\
    (forall d ds,
       datas_unicas df = d :: ds ->
       exists st,
         processa_dia df (pontuacoes_iniciais df) d = Some st /\
         Dict.get r d = Some (ranking (pontuacoes st)) /\
         Dict.get s d = Some {| pontos_ganhos := pontos_ganhos_dia st |}) /\
    (forall ds1 da d ds2 snapshot_da,
       datas_unicas df = ds1 ++ da :: d :: ds2 ->
       Dict.get r da = Some snapshot_da ->
       exists st,
         processa_dia df (placar_do_snapshot df snapshot_da) d = Some st /\
         Dict.get r d = Some (ranking (pontuacoes st)) /\
         Dict.get s d = Some {| pontos_ganhos := pontos_ganhos_dia st |}).
Proof.
  destruct (calculate_rankings_total df) as (r & s & t & E).
  exists r, s, t; split; [assumption|].
  destruct (calculate_rankings_saida _ E) as (Kr & Ks & Hd).
  split; [congruence|]. split; [assumption|]. split; [|split; [|split]].
  - intros d. rewrite Kr. apply datas_unicas_In.
  - intros d Id. rewrite Kr in Id.
    destruct (Hd d Id) as (pont & st & A & Ed & Gr & Gs).
    exists pont, st, (ranking (pontuacoes st)).
    pose proof (ponto_do_fold_invariante (ponto_do_fold_fim A Ed)) as I.
    repeat split; auto.
    + apply ranking_perm.
    + rewrite <- (inv_pontuacoes I). apply ranking_keys.
    + apply ranking_StronglySorted.
  - intros d ds Eds. apply (@primeiro_dia df r s t d ds E Eds).
  - intros ds1 da d ds2 snap Eds Ga.
    destruct (@dias_consecutivos df r s t ds1 ds2 da d E Eds)
      as (st_da & st & Gra & Ka & Ed & Gr & Gs).
    rewrite Gra in Ga; inversion Ga; subst snap.
    exists st. rewrite placar_do_snapshot_ranking by assumption. auto.
Qed.

Lemma rankings_e_stats_por_dia_witness :
  exists r s t,
    calculate_rankings tabela_zebra = Some (r, s, t) /\
    Dict.get r 1 = Some [("Ana", 1030); ("Bia", 990)] /\
    Dict.get r 2 = Some [("Bia", 1030); ("Ana", 1020)] /\
    exists st,
      processa_dia tabela_zebra [("Ana", 1030); ("Bia", 990)] 2 = Some st /\
      Dict.get r 2 = Some (ranking (pontuacoes st)).
Proof.
  destruct (rankings_e_stats_por_dia tabela_zebra)
    as (r & s & t & E & _ & _ & _ & _ & _ & Hn).
  exists r, s, t. split; [assumption|].
  assert (G1 : Dict.get r 1 = Some [("Ana", 1030); ("Bia", 990)]).
  { vm_compute in E. inversion E; subst. reflexivity. }
  assert (G2 : Dict.get r 2 = Some [("Bia", 1030); ("Ana", 1020)]).
  { vm_compute in E. inversion E; subst. reflexivity. }
  split; [assumption|]. split; [assumption|].
  destruct (Hn [] 1 2 [] _ eq_refl G1) as (st & Ed & Gr & _).
  exists st. split; assumption.
Defined.

(* ------------------------------------------------------------------ *)
(** * What the outputs depend on *)

Lemma unique_nil {A : Type} `{EqDec A} (l : list A) : unique l = [] -> l = [].
Proof.
  intros E. destruct l as [|x l]; [reflexivity|].
  assert (I : In x (unique (x :: l))) by (apply unique_In; now left).
  rewrite E in I. destruct I.
Qed.

Lemma jogadores_nil (df : DataFrame) : jogadores df = [] -> df = [].
Proof.
  intros E. apply unique_nil in E. unfold ravel_K in E.
  destruct df; [reflexivity | discriminate].
Qed.

Lemma StronglySorted_lt_ext (l1 l2 : list Z) :
  StronglySorted Z.lt l1 -> StronglySorted Z.lt l2 ->
  (forall x, In x l1 <-> In x l2) -> l1 = l2.
Proof.
  intros S1; revert l2; induction S1 as [|a l1 S1 IH F1]; intros l2 S2 H.
  - destruct l2 as [|b l2]; [reflexivity|].
    exfalso. apply (H b). now left.
  - destruct S2 as [|b l2 S2 F2].
    + exfalso. apply (H a). now left.
    + rewrite Forall_forall in F1, F2.
      assert (a = b).
      { destruct (proj1 (H a) (or_introl eq_refl)) as [->|Ia]; [reflexivity|].
        destruct (proj2 (H b) (or_introl eq_refl)) as [->|Ib]; [reflexivity|].
        specialize (F1 _ Ib). specialize (F2 _ Ia). lia. }
      subst b. f_equal. apply IH; [assumption|].
      intros x. split; intros Ix.
      * destruct (proj1 (H x) (or_intror Ix)) as [->|I']; [|assumption].
        specialize (F1 _ Ix). lia.
      * destruct (proj2 (H x) (or_intror Ix)) as [->|I']; [|assumption].
        specialize (F2 _ Ix). lia.
Qed.

Lemma datas_unicas_partidas (df : DataFrame) (d : Z) :
  In d (datas_unicas df) <-> exists p, In p (partidas_do_dia df d).
Proof.
  rewrite datas_unicas_In. split; intros (p & H); exists p.
  - now apply partidas_do_dia_In.
  - now apply partidas_do_dia_In in H.
Qed.

Lemma datas_unicas_ext (df1 df2 : DataFrame) :
  (forall d, partidas_do_dia df1 d = partidas_do_dia df2 d) ->
  datas_unicas df1 = datas_unicas df2.
Proof.
  intros H. apply StronglySorted_lt_ext; try apply datas_unicas_ascendente.
  intros d. rewrite !datas_unicas_partidas, H. reflexivity.
Qed.

Lemma loop_dias_ext (df1 df2 : DataFrame) (ds : list Z) (ac : acumulado) :
  jogadores df1 = jogadores df2 ->
  (forall d, partidas_do_dia df1 d = partidas_do_dia df2 d) ->
  loop_dias df1 ac ds = loop_dias df2 ac ds.
Proof.
  intros Hj Hp. revert ac; induction ds as [|d ds IH]; intros ac; simpl; [reflexivity|].
  assert (Ed : processa_dia df1 (pontuacoes_atuais ac) d
               = processa_dia df2 (pontuacoes_atuais ac) d).
  { unfold processa_dia. now rewrite Hj, Hp. }
  rewrite Ed. destruct (processa_dia df2 (pontuacoes_atuais ac) d); simpl; auto.
Qed.

(** C9. The rankings and the records are determined by the table: two
    runs on the same table return the same collections, element for element,
    and they do return.  The table reaches them only through the player cells
    in order of first appearance and, for every date, the rows of that date in
    order of [ID_Partida]: two tables that agree on these return the same
    rankings and the same records, whatever else differs, the order of their
    rows included. *)
Theorem calculate_rankings_deterministico (df1 df2 : DataFrame) :
  jogadores df1 = jogadores df2 ->
  (forall d, partidas_do_dia df1 d = partidas_do_dia df2 d) ->
  exists r s t1 t2,
    calculate_rankings df1 = Some (r, s, t1) /\
    calculate_rankings df2 = Some (r, s, t2) /\
    (df1 = df2 -> t1 = t2).
Proof.
  intros Hj Hp.
  destruct (calculate_rankings_total df1) as (r & s & t1 & E1).
  exists r, s, t1.
  destruct df1 as [|p1 df1'].
  - assert (df2 = []) by (apply jogadores_nil; rewrite <- Hj; reflexivity).
    subst df2. exists t1. auto.
  - destruct df2 as [|p2 df2'].
    + change (jogadores []) with (@nil (option string)) in Hj.
      apply jogadores_nil in Hj. discriminate.
    + exists (dados (p2 :: df2')).
      set (df1 := p1 :: df1') in *. set (df2 := p2 :: df2') in *.
      pose proof E1 as E1'.
      change (calculate_rankings df1)
        with (do ac <- loop_dias df1 (acumulado_inicial df1) (datas_unicas df1);
              Some (rankings_diarios ac, stats_diarias ac, dados df1)) in E1'.
      apply bind_Some in E1' as (ac & El & R). inversion R; subst r s t1; clear R.
      assert (El2 : loop_dias df2 (acumulado_inicial df2) (datas_unicas df2) = Some ac).
      { rewrite <- (@datas_unicas_ext df1 df2 Hp).
        rewrite <- (@loop_dias_ext df1 df2 (datas_unicas df1) (acumulado_inicial df2) Hj Hp).
        unfold acumulado_inicial, pontuacoes_iniciais. rewrite <- Hj. exact El. }
      split; [exact E1|].
      change (calculate_rankings df2)
        with (do ac <- loop_dias df2 (acumulado_inicial df2) (datas_unicas df2);
              Some (rankings_diarios ac, stats_diarias ac, dados df2)).
      rewrite El2. simpl. split; [reflexivity|].
      intros E. now rewrite E.
Qed.

Lemma calculate_rankings_deterministico_witness :
  tabela_tres <> tabela_tres_trocada /\
  exists r s t1 t2,
    calculate_rankings tabela_tres = Some (r, s, t1) /\
    calculate_rankings tabela_tres_trocada = Some (r, s, t2) /\
    (tabela_tres = tabela_tres_trocada -> t1 = t2).
Proof.
  split; [discriminate|].
  apply (@calculate_rankings_deterministico tabela_tres tabela_tres_trocada).
  - reflexivity.
  - intros d. unfold partidas_do_dia, tabela_tres, tabela_tres_trocada, linha.
    cbn [filter Data].
    destruct (1 =? d), (2 =? d); reflexivity.
Defined.
